(** * Student dashboard (app.py): data preparation, filtering and aggregation

    A shallow embedding of the script [app.py].  The script is a straight
    line of pandas calls between Streamlit calls; it is embedded as

    - the table read by [pd.read_csv] as a header and rows of cells;
    - pandas column operations as functions on lists of records;
    - Python exceptions as an error monad ([exn]);
    - Streamlit output as a list of events, with [st.stop] as an outcome.

    Numbers.  A number in a cell is a finite number, embedded in [Q] and
    compared with [Qeq]; infinities are not written.  Where the script's
    own sums and means are computed they are exact, so a statement about
    their values either leaves the arithmetic to a parameter or is made
    under a bound that keeps 64-bit integers and binary floats exact. *)

From Stdlib Require Import List Bool Arith ZArith QArith Qround Qabs String Ascii Lia.
From Stdlib Require Import Sorting.Sorted Permutation.
Import ListNotations.
Local Open Scope string_scope.
Local Open Scope list_scope.

Set Implicit Arguments.

(** ** Exceptions *)

Inductive exception :=
| KeyError (column : string)
| TypeError (what : string)
| ValueError (what : string)
| OSError (what : string)
| LibraryError (what : string).

Inductive exn (A : Type) :=
| Ok (a : A)
| Raise (e : exception).
Arguments Ok {A} a.
Arguments Raise {A} e.

Definition bind {A B} (m : exn A) (k : A -> exn B) : exn B :=
  match m with
  | Ok a => k a
  | Raise e => Raise e
  end.

(** [try: body  except Exception: handler] *)
Definition try_except {A} (body : exn A) (handler : exception -> exn A) : exn A :=
  match body with
  | Ok a => Ok a
  | Raise e => handler e
  end.

Notation "x <- m ;; k" := (bind m (fun x => k))
  (at level 61, m at next level, right associativity).

(** ** Cells *)

(** A cell of a table as [read_csv] delivers it: a number, a string, or
    missing (NaN / pd.NA), which is [None].  A number is finite: what
    pandas reads as an infinity is not written. *)
Inductive value :=
| VNum (q : Q)
| VStr (s : string).

Definition cell := option value.

Definition value_eqb (a b : value) : bool :=
  match a, b with
  | VNum p, VNum q => Qeq_bool p q
  | VStr s, VStr t => String.eqb s t
  | _, _ => false
  end.

(** Equality of values as Python's [==] sees it. *)
Definition value_eq (a b : value) : Prop :=
  match a, b with
  | VNum p, VNum q => p == q
  | VStr s, VStr t => s = t
  | _, _ => False
  end.

(** Python's [<=] on two values; comparing a number with a string raises
    TypeError, which [same_kind] detects before sorting. *)
Definition value_leb (a b : value) : bool :=
  match a, b with
  | VNum p, VNum q => Qle_bool p q
  | VStr s, VStr t => String.leb s t
  | VNum _, VStr _ => true
  | VStr _, VNum _ => false
  end.

Definition is_num (v : value) : bool :=
  match v with VNum _ => true | VStr _ => false end.

(** ** Generic list helpers: [unique], [sorted], [dropna] *)

Section ListOps.
Variable A : Type.
Variable eqb : A -> A -> bool.
Variable leb : A -> A -> bool.

Definition mem (x : A) (l : list A) : bool := existsb (eqb x) l.

(** [Series.unique()]: distinct values in order of first appearance. *)
Fixpoint unique_acc (seen l : list A) : list A :=
  match l with
  | [] => []
  | x :: l' => if mem x seen then unique_acc seen l'
               else x :: unique_acc (x :: seen) l'
  end.

Definition unique (l : list A) : list A := unique_acc [] l.

Fixpoint insert (x : A) (l : list A) : list A :=
  match l with
  | [] => [x]
  | y :: l' => if leb x y then x :: y :: l' else y :: insert x l'
  end.

(** [sorted(...)] on a list whose elements are mutually comparable. *)
Fixpoint sorted (l : list A) : list A :=
  match l with
  | [] => []
  | x :: l' => insert x (sorted l')
  end.
End ListOps.

(** [Series.dropna()] *)
Fixpoint dropna {A} (l : list (option A)) : list A :=
  match l with
  | [] => []
  | Some x :: l' => x :: dropna l'
  | None :: l' => dropna l'
  end.

(** ** Strings *)

(** [str.replace(old, new)] for a non-empty [old]: every non-overlapping
    occurrence, scanning from the left.  [skip] counts the characters of an
    occurrence still to be dropped. *)
Fixpoint replace_from (old new : string) (skip : nat) (s : string) : string :=
  match s with
  | EmptyString => EmptyString
  | String c s' =>
      match skip with
      | S k => replace_from old new k s'
      | O => if String.prefix old s
             then new ++ replace_from old new (String.length old - 1) s'
             else String c (replace_from old new 0 s')
      end
  end.

Definition str_replace (old new s : string) : string :=
  replace_from old new 0 s.

(** [Series.str.replace(old, new, regex=False)]: strings are rewritten,
    every other cell (missing or not a string) comes out missing. *)
Definition series_str_replace (old new : string) (c : cell) : cell :=
  match c with
  | Some (VStr s) => Some (VStr (str_replace old new s))
  | _ => None
  end.

(** ** The wide table *)

(** What [pd.read_csv] returns: column names and rows of cells.  A row
    shorter than the header is padded with missing cells by the parser, so
    reading past the end of a row gives [None]. *)
Record DataFrame := {
  columns : list string;
  rows : list (list cell)
}.

Fixpoint index_of (name : string) (cols : list string) : option nat :=
  match cols with
  | [] => None
  | c :: cols' => if String.eqb name c then Some O
                  else option_map S (index_of name cols')
  end.

Definition cell_at (i : nat) (row : list cell) : cell := nth i row None.

(** Position of a column, KeyError when the frame has no such column. *)
Definition locate (name : string) (df : DataFrame) : exn nat :=
  match index_of name (columns df) with
  | Some i => Ok i
  | None => Raise (KeyError name)
  end.

(** One row of the wide table restricted to the eleven columns that
    [melt] names. *)
Record WideRow := {
  wYear : cell;
  wTerm : cell;
  wApplications : cell;
  wAdmits : cell;         (* column "Admitted" *)
  wEnrolled : cell;
  wRetention : cell;      (* "Retention Rate (%)" *)
  wSatisfaction : cell;   (* "Student Satisfaction (%)" *)
  wEngineering : cell;    (* "Engineering Enrolled" *)
  wBusiness : cell;       (* "Business Enrolled" *)
  wArts : cell;           (* "Arts Enrolled" *)
  wScience : cell         (* "Science Enrolled" *)
}.

Definition id_vars : list string :=
  ["Year"; "Term"; "Applications"; "Admitted"; "Enrolled";
   "Retention Rate (%)"; "Student Satisfaction (%)"].

(** [value_vars], each with the accessor of its column. *)
Definition value_vars : list (string * (WideRow -> cell)) :=
  [("Engineering Enrolled", wEngineering);
   ("Business Enrolled", wBusiness);
   ("Arts Enrolled", wArts);
   ("Science Enrolled", wScience)].

(** [frame.loc[:, id_vars + value_vars]], the first thing [melt] does: a
    column of either list that the frame lacks raises KeyError. *)
Definition select_columns (df : DataFrame) : exn (list WideRow) :=
  iY <- locate "Year" df ;;
  iT <- locate "Term" df ;;
  iAp <- locate "Applications" df ;;
  iAd <- locate "Admitted" df ;;
  iEn <- locate "Enrolled" df ;;
  iR <- locate "Retention Rate (%)" df ;;
  iS <- locate "Student Satisfaction (%)" df ;;
  iE <- locate "Engineering Enrolled" df ;;
  iB <- locate "Business Enrolled" df ;;
  iA <- locate "Arts Enrolled" df ;;
  iSc <- locate "Science Enrolled" df ;;
  Ok (map (fun r =>
        {| wYear := cell_at iY r; wTerm := cell_at iT r;
           wApplications := cell_at iAp r; wAdmits := cell_at iAd r;
           wEnrolled := cell_at iEn r; wRetention := cell_at iR r;
           wSatisfaction := cell_at iS r; wEngineering := cell_at iE r;
           wBusiness := cell_at iB r; wArts := cell_at iA r;
           wScience := cell_at iSc r |}) (rows df)).

(** ** Reshaping (lines 42-60) *)

(** A row after [melt]. *)
Record Melted := {
  mYear : cell;
  mTerm : cell;
  mApplications : cell;
  mAdmits : cell;
  mEnrolled : cell;
  mRetention : cell;
  mSatisfaction : cell;
  mDepartment : cell;        (* var_name *)
  mEnrollmentsDept : cell    (* value_name *)
}.

Definition melt_cell (var : string * (WideRow -> cell)) (w : WideRow) : Melted :=
  {| mYear := wYear w; mTerm := wTerm w; mApplications := wApplications w;
     mAdmits := wAdmits w; mEnrolled := wEnrolled w;
     mRetention := wRetention w; mSatisfaction := wSatisfaction w;
     mDepartment := Some (VStr (fst var));
     mEnrollmentsDept := snd var w |}.

(** [DataFrame.melt]: the value columns are stacked one after the other,
    so the output lists all rows for the first value column, then all rows
    for the second, and so on. *)
Definition melt_rows (ws : list WideRow) : list Melted :=
  flat_map (fun var => map (melt_cell var) ws) value_vars.

Definition var_name : string := "Department".
Definition value_name : string := "EnrollmentsDept".

(** [df.melt(id_vars, value_vars, var_name, value_name)].  Before anything
    else pandas refuses a frame that already has a column called
    [value_name] (ValueError); then it looks the eleven labels up. *)
Definition value_name_error : exception :=
  ValueError
    "value_name (EnrollmentsDept) cannot match an element in the DataFrame columns.".

Definition melt (df : DataFrame) : exn (list Melted) :=
  if mem String.eqb value_name (columns df)
  then Raise value_name_error
  else ws <- select_columns df ;;
       Ok (melt_rows ws).

(** A row of the long table before type coercion: after the department
    names are cleaned, the two percentage columns renamed and
    [Enrollments] added. *)
Record LongRaw := {
  raw_Year : cell;
  raw_Term : cell;
  raw_Applications : cell;
  raw_Admits : cell;
  raw_Enrolled : cell;
  raw_RetentionRate : cell;
  raw_SatisfactionScore : cell;
  raw_Department : cell;
  raw_EnrollmentsDept : cell;
  raw_Enrollments : cell
}.

Definition clean_row (m : Melted) : LongRaw :=
  {| raw_Year := mYear m; raw_Term := mTerm m;
     raw_Applications := mApplications m; raw_Admits := mAdmits m;
     raw_Enrolled := mEnrolled m;
     raw_RetentionRate := mRetention m;            (* rename *)
     raw_SatisfactionScore := mSatisfaction m;     (* rename *)
     raw_Department := series_str_replace " Enrolled" "" (mDepartment m);
     raw_EnrollmentsDept := mEnrollmentsDept m;
     raw_Enrollments := mEnrollmentsDept m |}.

Definition reshape (df : DataFrame) : exn (list LongRaw) :=
  ms <- melt df ;;
  Ok (map clean_row ms).

(** ** Validation and type coercion (lines 62-79) *)

(** A row of the long table after coercion.  The five coerced columns hold
    numbers or missing; the others are as [reshape] left them. *)
Record LongRecord := {
  Year : option Q;
  Term : cell;
  Applications : option Q;
  Admits : cell;              (* column "Admitted" *)
  Enrolled : cell;
  RetentionRate : option Q;
  SatisfactionScore : option Q;
  Department : cell;
  EnrollmentsDept : cell;
  Enrollments : option Q
}.

(** Columns of the frame once line 60 has run. *)
Definition long_columns : list string :=
  ["Year"; "Term"; "Applications"; "Admitted"; "Enrolled";
   "RetentionRate"; "SatisfactionScore";
   "Department"; "EnrollmentsDept"; "Enrollments"].

Definition expected_columns : list string :=
  ["Year"; "Department"; "Term"; "Applications"; "Enrollments";
   "RetentionRate"; "SatisfactionScore"].

(** [expected_columns - set(df.columns)] *)
Definition missing : list string :=
  filter (fun c => negb (mem String.eqb c long_columns)) expected_columns.

Section Coercion.

(** The reading of a string as a number that [pd.to_numeric] performs; it
    belongs to pandas and is taken as given. *)
Variable parse_number : string -> option Q.

(** [pd.to_numeric(..., errors="coerce")] on one cell. *)
Definition to_numeric_cell (c : cell) : option Q :=
  match c with
  | Some (VNum q) => Some q
  | Some (VStr s) => parse_number s
  | None => None
  end.

Definition to_numeric (col : list cell) : list (option Q) :=
  map to_numeric_cell col.

Definition is_integral (q : Q) : bool :=
  Qeq_bool (inject_Z (Qfloor q)) q.

(** [.astype("Int64")]: refuses a column holding a number with a
    fractional part. *)
Definition astype_Int64 (col : list (option Q)) : exn (list (option Q)) :=
  if forallb (fun c => match c with
                       | Some q => is_integral q
                       | None => true
                       end) col
  then Ok col
  else Raise (TypeError "cannot safely cast non-equivalent float64 to int64").

(** Body of the first loop (lines 72-75). *)
Definition coerce_int_column (col : list cell) : exn (list (option Q)) :=
  try_except (astype_Int64 (to_numeric col))
             (fun _ => Ok (to_numeric col)).

(** Body of the second loop (line 79), outside any [try]. *)
Definition coerce_float_column (col : list cell) : exn (list (option Q)) :=
  Ok (to_numeric col).

(** Writing the five new columns back, row by row. *)
Fixpoint assign_columns (df : list LongRaw)
    (year apps enr ret sat : list (option Q)) (i : nat) : list LongRecord :=
  match df with
  | [] => []
  | r :: df' =>
      {| Year := nth i year None;
         Term := raw_Term r;
         Applications := nth i apps None;
         Admits := raw_Admits r;
         Enrolled := raw_Enrolled r;
         RetentionRate := nth i ret None;
         SatisfactionScore := nth i sat None;
         Department := raw_Department r;
         EnrollmentsDept := raw_EnrollmentsDept r;
         Enrollments := nth i enr None |}
      :: assign_columns df' year apps enr ret sat (S i)
  end.

(** Both loops.  Every [col in df.columns] test holds, see [missing]. *)
Definition coerce (df : list LongRaw) : exn (list LongRecord) :=
  year <- coerce_int_column (map raw_Year df) ;;
  apps <- coerce_int_column (map raw_Applications df) ;;
  enr <- coerce_int_column (map raw_Enrollments df) ;;
  ret <- coerce_float_column (map raw_RetentionRate df) ;;
  sat <- coerce_float_column (map raw_SatisfactionScore df) ;;
  Ok (assign_columns df year apps enr ret sat 0).

End Coercion.

(** ** Filters (lines 88-102) *)

(** [Series.isin(sel)] on one cell; a missing cell is in no selection. *)
Definition isin {A} (eqb : A -> A -> bool) (c : option A) (sel : list A) : bool :=
  match c with
  | Some v => mem eqb v sel
  | None => false
  end.

(** [if sel: df_f = df_f[df_f[col].isin(sel)]] *)
Definition filter_by {A} (eqb : A -> A -> bool) (col : LongRecord -> option A)
    (sel : list A) (df_f : list LongRecord) : list LongRecord :=
  match sel with
  | [] => df_f
  | _ :: _ => filter (fun r => isin eqb (col r) sel) df_f
  end.

Definition apply_filters (year_sel : list Q) (dept_sel term_sel : list value)
    (df : list LongRecord) : list LongRecord :=
  filter_by value_eqb Term term_sel
    (filter_by value_eqb Department dept_sel
       (filter_by Qeq_bool Year year_sel df)).

Definition same_kind (l : list value) : bool :=
  forallb is_num l || forallb (fun v => negb (is_num v)) l.

(** Python's [sorted] on values: TypeError as soon as a number meets a
    string. *)
Definition py_sorted (l : list value) : exn (list value) :=
  if same_kind l then Ok (sorted value_leb l)
  else Raise (TypeError "'<' not supported between instances of 'str' and 'float'").

(** Lines 88-90. *)
Definition years_of (df : list LongRecord) : list Q :=
  sorted Qle_bool (unique Qeq_bool (dropna (map Year df))).

Definition depts_of (df : list LongRecord) : exn (list value) :=
  py_sorted (unique value_eqb (dropna (map Department df))).

Definition terms_of (df : list LongRecord) : exn (list value) :=
  py_sorted (unique value_eqb (dropna (map Term df))).

(** What the user did with one multiselect: left it alone, or picked. *)
Definition multiselect {A} (options default : list A)
    (choice : option (list A)) : list A :=
  match choice with
  | None => default
  | Some picked => picked
  end.

Record Choices := {
  year_choice : option (list Q);
  dept_choice : option (list value);
  term_choice : option (list value)
}.

Definition untouched : Choices :=
  {| year_choice := None; dept_choice := None; term_choice := None |}.

(** ** Aggregation (lines 112-154) *)

Definition total (xs : list Q) : Q := fold_right Qplus 0 xs.

(** [Series.mean()]: missing cells are skipped; no cell left gives NaN.
    The quotient is exact here, where pandas rounds it to a float. *)
Definition series_mean (col : list (option Q)) : option Q :=
  match dropna col with
  | [] => None
  | x :: xs => Some (total (x :: xs) / inject_Z (Z.of_nat (List.length (x :: xs))))
  end.

(** [Series.sum(min_count=1)]: missing cells are skipped; no cell left
    gives the missing value.  The sum is exact here; the column's own sum
    is this one on [exact_counts]. *)
Definition sum_min_count_1 (col : list (option Q)) : option Q :=
  match dropna col with
  | [] => None
  | x :: xs => Some (total (x :: xs))
  end.

(** [Series.sum()] inside [groupby]: an empty group sums to zero.  Exact,
    as [sum_min_count_1]. *)
Definition series_sum (col : list (option Q)) : Q := total (dropna col).

(** [x or 0].  A number is falsy exactly when it is zero.  On the missing
    value of an Int64 column (pd.NA) the truth test itself raises
    TypeError; on the missing value of a float column (nan) the test
    succeeds and hands nan on to [int], which raises ValueError.  Both
    are rendered as the exception below. *)
Definition or_zero (x : option Q) : exn Q :=
  match x with
  | Some q => if Qeq_bool q 0 then Ok 0 else Ok q
  | None => Raise (TypeError "boolean value of NA is ambiguous")
  end.

(** [int(x)]: truncation toward zero. *)
Definition py_int (q : Q) : Z := Z.quot (Qnum q) (Z.pos (Qden q)).

(** Line 115. *)
Definition total_enr (df_f : list LongRecord) : exn Z :=
  s <- or_zero (sum_min_count_1 (map Enrollments df_f)) ;;
  Ok (py_int s).

(** [df_f.groupby(key, as_index=False)[val].agg()]: rows with a missing
    key are left out, groups come in ascending key order, and the
    aggregation [agg] of pandas is handed, for each key, the [val] column
    of the rows with that key, in table order. *)
Definition groupby {K R} (eqb leb : K -> K -> bool)
    (agg : list (option Q) -> R)
    (key : LongRecord -> option K) (val : LongRecord -> option Q)
    (df_f : list LongRecord) : list (K * R) :=
  map (fun k =>
         (k, agg (map val (filter (fun r => isin eqb (key r) [k]) df_f))))
      (sorted leb (unique eqb (dropna (map key df_f)))).

(** [df_f.groupby(key, as_index=False)[val].mean()], with the exact
    mean. *)
Definition groupby_mean (key val : LongRecord -> option Q)
    (df_f : list LongRecord) : list (Q * option Q) :=
  groupby Qeq_bool Qle_bool series_mean key val df_f.

(** [df_f.groupby("Term", as_index=False)["Enrollments"].sum()].  The
    keys are mutually comparable here, line 90 having sorted the same
    column. *)
Definition groupby_sum (key : LongRecord -> cell) (val : LongRecord -> option Q)
    (df_f : list LongRecord) : list (value * Q) :=
  groupby value_eqb value_leb series_sum key val df_f.

(** ** The page: events, halting, guarded sections *)

Inductive kpi := KRetention | KSatisfaction | KEnrollments.
Inductive chart := ChartRetention | ChartSatisfaction | ChartTerm.

(** A call into the presenter made under a [try]. *)
Inductive widget :=
| WMetric (k : kpi)
| WChart (c : chart).

(** The text a metric shows: ["%.2f%%"], ["%.2f/5"], an integer, ["N/A"]. *)
Inductive display :=
| ShowPercent (q : Q)
| ShowOutOfFive (q : Q)
| ShowInt (z : Z)
| ShowNA.

Inductive message :=
| MsgNoFile
| MsgMissingColumns (names : list string)
| MsgNoRows
| MsgKPI (e : exception)
| MsgChart (c : chart) (e : exception).

Inductive event :=
| EvTitle
| EvIntro
| EvError (m : message)
| EvWarning (m : message)
| EvSubheader (text : string)
| EvPreview (head : list LongRecord)
| EvShape (nrows ncols : nat)
| EvSidebar (years : list Q) (depts terms : list value)
| EvMetric (k : kpi) (d : display)
| EvLineChart (series : list (Q * option Q))
| EvBarChart (series : list (Q * option Q))
| EvPieChart (series : list (value * Q))
| EvFilteredTable (rows : list LongRecord).

(** How a piece of the script ends: it falls through with a value, an
    exception is in flight, or [st.stop()] ended the run.  [st.stop] is not
    an [Exception], so no [except Exception] catches it. *)
Inductive result (A : Type) :=
| Return (a : A)
| Raised (e : exception)
| Halted.
Arguments Return {A} a.
Arguments Raised {A} e.
Arguments Halted {A}.

(** A piece of the script: what it put on the page, and how it ended. *)
Definition prog (A : Type) : Type := (list event * result A)%type.

Definition pbind {A B} (m : prog A) (k : A -> prog B) : prog B :=
  match m with
  | (evs, Return a) => let (evs', r) := k a in (evs ++ evs', r)
  | (evs, Raised e) => (evs, Raised e)
  | (evs, Halted) => (evs, Halted)
  end.

Notation "x <~ m ;; k" := (pbind m (fun x => k))
  (at level 61, m at next level, right associativity).

Definition emit (ev : event) : prog unit := ([ev], Return tt).

Definition st_stop {A} : prog A := ([], Halted).

Definition lift {A} (m : exn A) : prog A :=
  match m with
  | Ok a => ([], Return a)
  | Raise e => ([], Raised e)
  end.

(** [try: body  except Exception as e: handler e]; what the body showed
    before it raised stays on the page. *)
Definition guarded {A} (body : prog A) (handler : exception -> prog A) : prog A :=
  match body with
  | (evs, Raised e) => let (evs', r) := handler e in (evs ++ evs', r)
  | other => other
  end.

(** A presenter call under a [try]: it shows its event, or it raises. *)
Definition present (raises : widget -> bool) (w : widget) (ev : event) : prog unit :=
  if raises w then ([], Raised (LibraryError "presenter"))
  else emit ev.

(** ** Loading (lines 17-40) *)

Inductive file_state :=
| Absent
| Unreadable (e : exception)
| Readable (df : DataFrame).

Definition DATA_PATHS : list string :=
  ["university_student_data.csv"; "/mnt/data/university_student_data.csv"].

Definition path_exists (fs : string -> file_state) (p : string) : exn bool :=
  match fs p with
  | Absent => Ok false
  | _ => Ok true
  end.

Definition read_csv (fs : string -> file_state) (p : string) : exn DataFrame :=
  match fs p with
  | Readable df => Ok df
  | Unreadable e => Raise e
  | Absent => Raise (OSError "No such file or directory")
  end.

(** The [try] body of one iteration: [Some df] is [return df], [None]
    falls out of the [if]. *)
Definition try_path (fs : string -> file_state) (p : string) : exn (option DataFrame) :=
  found <- path_exists fs p ;;
  if found : bool then df <- read_csv fs p ;; Ok (Some df)
  else Ok None.

(** The loop of [load_data] over a list of candidates. *)
Fixpoint load_from (fs : string -> file_state) (paths : list string)
    : exn (option DataFrame) :=
  match paths with
  | [] => Ok None
  | p :: rest =>
      r <- try_except (try_path fs p) (fun _ => Ok None) ;;
      match r with
      | Some df => Ok (Some df)
      | None => load_from fs rest
      end
  end.

(** What [@st.cache_data(ttl=600)] holds for [load_data] when a run
    starts: the value an earlier run's call returned, and the seconds
    gone by since. *)
Record CacheEntry := {
  cached_value : option DataFrame;
  cached_age : nat
}.

Definition ttl : nat := 600.

(** The entry is served while it is younger than [ttl]. *)
Definition cache_lookup (c : option CacheEntry) : option (option DataFrame) :=
  match c with
  | Some e => if (cached_age e <? ttl)%nat then Some (cached_value e) else None
  | None => None
  end.

(** [load_data()] as decorated: a served entry is returned without
    running the body, so without looking at the files; otherwise the
    body runs. *)
Definition load_data (c : option CacheEntry) (fs : string -> file_state)
    : exn (option DataFrame) :=
  match cache_lookup c with
  | Some v => Ok v
  | None => load_from fs DATA_PATHS
  end.

(** ** The script *)

(** What one run of the page depends on. *)
Record World := {
  files : string -> file_state;
  cache : option CacheEntry;
  choices : Choices;
  presenter_raises : widget -> bool
}.

Section Script.

Variable parse_number : string -> option Q.

(** Lines 112-120. *)
Definition kpi_block (raises : widget -> bool) (df_f : list LongRecord) : prog unit :=
  guarded
    (let avg_ret := series_mean (map RetentionRate df_f) in
     let avg_sat := series_mean (map SatisfactionScore df_f) in
     enr <~ lift (total_enr df_f) ;;
     _ <~ present raises (WMetric KRetention)
            (EvMetric KRetention
               match avg_ret with Some q => ShowPercent q | None => ShowNA end) ;;
     _ <~ present raises (WMetric KSatisfaction)
            (EvMetric KSatisfaction
               match avg_sat with Some q => ShowOutOfFive q | None => ShowNA end) ;;
     present raises (WMetric KEnrollments) (EvMetric KEnrollments (ShowInt enr)))
    (fun e => emit (EvError (MsgKPI e))).

(** Lines 124-132, 136-143, 147-154. *)
Definition chart_event (c : chart) (df_f : list LongRecord) : event :=
  match c with
  | ChartRetention => EvLineChart (groupby_mean Year RetentionRate df_f)
  | ChartSatisfaction => EvBarChart (groupby_mean Year SatisfactionScore df_f)
  | ChartTerm => EvPieChart (groupby_sum Term Enrollments df_f)
  end.

Definition chart_block (raises : widget -> bool) (c : chart)
    (df_f : list LongRecord) : prog unit :=
  guarded (present raises (WChart c) (chart_event c df_f))
          (fun e => emit (EvError (MsgChart c e))).

(** Lines 110-158, run on a filtered table that has rows. *)
Definition dashboard (raises : widget -> bool) (df_f : list LongRecord) : prog unit :=
  _ <~ emit (EvSubheader "Indicadores clave") ;;
  _ <~ kpi_block raises df_f ;;
  _ <~ emit (EvSubheader "Tendencia: Retención por año") ;;
  _ <~ chart_block raises ChartRetention df_f ;;
  _ <~ emit (EvSubheader "Satisfacción promedio por año") ;;
  _ <~ chart_block raises ChartSatisfaction df_f ;;
  _ <~ emit (EvSubheader "Distribución de matrículas por periodo") ;;
  _ <~ chart_block raises ChartTerm df_f ;;
  _ <~ emit (EvSubheader "Datos filtrados") ;;
  emit (EvFilteredTable df_f).

(** Lines 63-68. *)
Definition validate : prog unit :=
  match missing with
  | [] => ([], Return tt)
  | _ :: _ => emit (EvWarning (MsgMissingColumns (sorted String.leb missing)))
  end.

(** Lines 12-60: the page header, the load and its guard, the reshaping. *)
Definition load_and_reshape (w : World) : prog (list LongRaw) :=
  _ <~ emit EvTitle ;;
  _ <~ emit EvIntro ;;
  loaded <~ lift (load_data (cache w) (files w)) ;;
  match loaded with
  | None => _ <~ emit (EvError MsgNoFile) ;; st_stop
  | Some wide => lift (reshape wide)
  end.

(** Lines 12-102: everything up to and including the filters; the value
    is [df_f]. *)
Definition filtered (w : World) : prog (list LongRecord) :=
  raw <~ load_and_reshape w ;;
  _ <~ validate ;;
  df <~ lift (coerce parse_number raw) ;;
  _ <~ emit (EvSubheader "Vista rápida del conjunto de datos") ;;
  _ <~ emit (EvPreview (firstn 5 df)) ;;
  _ <~ emit (EvShape (List.length df) (List.length long_columns)) ;;
  let years := years_of df in
  depts <~ lift (depts_of df) ;;
  terms <~ lift (terms_of df) ;;
  _ <~ emit (EvSidebar years depts terms) ;;
  let year_sel := multiselect years years (year_choice (choices w)) in
  let dept_sel := multiselect depts depts (dept_choice (choices w)) in
  let term_sel := multiselect terms terms (term_choice (choices w)) in
  ([], Return (apply_filters year_sel dept_sel term_sel df)).

(** The whole script. *)
Definition script (w : World) : prog unit :=
  df_f <~ filtered w ;;
  match df_f with
  | [] => _ <~ emit (EvWarning MsgNoRows) ;; st_stop
  | _ :: _ => dashboard (presenter_raises w) df_f
  end.

End Script.

(** ** Well-formed input and the spec's reading of a reshaped row *)

(** The cell of a row under a named column of the table. *)
Definition column (name : string) (df : DataFrame) (row : list cell) : cell :=
  match index_of name (columns df) with
  | Some i => cell_at i row
  | None => None
  end.

Definition required_columns : list string :=
  id_vars ++ map fst value_vars.

(** A wide table is well formed when it has the eleven columns. *)
Definition well_formed (df : DataFrame) : Prop :=
  forall c, In c required_columns -> In c (columns df).

(** [melt] accepts a table that is well formed and leaves the name of
    the value column free. *)
Definition meltable (df : DataFrame) : Prop :=
  well_formed df /\ ~ In value_name (columns df).

(** The view of a row that [melt] works on. *)
Definition wide_view (df : DataFrame) (row : list cell) : WideRow :=
  {| wYear := column "Year" df row;
     wTerm := column "Term" df row;
     wApplications := column "Applications" df row;
     wAdmits := column "Admitted" df row;
     wEnrolled := column "Enrolled" df row;
     wRetention := column "Retention Rate (%)" df row;
     wSatisfaction := column "Student Satisfaction (%)" df row;
     wEngineering := column "Engineering Enrolled" df row;
     wBusiness := column "Business Enrolled" df row;
     wArts := column "Arts Enrolled" df row;
     wScience := column "Science Enrolled" df row |}.

(** The departments in declared order, each with its wide column. *)
Definition departments : list (string * string) :=
  [("Engineering", "Engineering Enrolled");
   ("Business", "Business Enrolled");
   ("Arts", "Arts Enrolled");
   ("Science", "Science Enrolled")].

(** The spec's LongRecord of one wide row for one department: the row's
    scalar fields, the department name, the department's count. *)
Definition long_row_of (df : DataFrame) (row : list cell)
    (dept col : string) : LongRaw :=
  {| raw_Year := column "Year" df row;
     raw_Term := column "Term" df row;
     raw_Applications := column "Applications" df row;
     raw_Admits := column "Admitted" df row;
     raw_Enrolled := column "Enrolled" df row;
     raw_RetentionRate := column "Retention Rate (%)" df row;
     raw_SatisfactionScore := column "Student Satisfaction (%)" df row;
     raw_Department := Some (VStr dept);
     raw_EnrollmentsDept := column col df row;
     raw_Enrollments := column col df row |}.

(** The sum of a list of cells that are all numbers. *)
Fixpoint numeric_sum (cs : list cell) : option Q :=
  match cs with
  | [] => Some 0
  | Some (VNum q) :: cs' => option_map (Qplus q) (numeric_sum cs')
  | _ :: _ => None
  end.

(** Positions in the long table of the four records of wide row [i], the
    table having [n] wide rows. *)
Definition positions_of_row (n i : nat) : list nat :=
  [i; n + i; 2 * n + i; 3 * n + i]%nat.

(** The [EnrollmentsDept] cells of the four records of wide row [i]. *)
Definition dept_cells_of_row (long : list LongRaw) (n i : nat) : list cell :=
  map (fun j => match nth_error long j with
                | Some r => raw_EnrollmentsDept r
                | None => None
                end) (positions_of_row n i).

(** The four department cells of a wide row. *)
Definition wide_dept_cells (df : DataFrame) (row : list cell) : list cell :=
  map (fun d => column (snd d) df row) departments.

Definition is_number (c : cell) : Prop :=
  exists q, c = Some (VNum q).

(** ** Row-wise reading of the coercion *)

(** A cell fails to parse when it is a string that [pd.to_numeric] cannot
    read as a number. *)
Definition fails_to_parse (parse_number : string -> option Q) (c : cell) : Prop :=
  exists s, c = Some (VStr s) /\ parse_number s = None.

(** What the spec asks of one coerced cell: a number is kept, a string
    that reads as a number becomes that number, a string that does not
    becomes missing, and a missing cell stays missing. *)
Inductive coerced (parse_number : string -> option Q) : cell -> option Q -> Prop :=
| coerced_number q :
    coerced parse_number (Some (VNum q)) (Some q)
| coerced_parsed s q :
    parse_number s = Some q ->
    coerced parse_number (Some (VStr s)) (Some q)
| coerced_failed s :
    parse_number s = None ->
    coerced parse_number (Some (VStr s)) None
| coerced_missing :
    coerced parse_number None None.

(** The spec's coercion, one row at a time: each of the five numeric
    cells becomes its number or missing, the rest of the row is kept. *)
Definition coerce_row (parse_number : string -> option Q) (r : LongRaw) : LongRecord :=
  {| Year := to_numeric_cell parse_number (raw_Year r);
     Term := raw_Term r;
     Applications := to_numeric_cell parse_number (raw_Applications r);
     Admits := raw_Admits r;
     Enrolled := raw_Enrolled r;
     RetentionRate := to_numeric_cell parse_number (raw_RetentionRate r);
     SatisfactionScore := to_numeric_cell parse_number (raw_SatisfactionScore r);
     Department := raw_Department r;
     EnrollmentsDept := raw_EnrollmentsDept r;
     Enrollments := to_numeric_cell parse_number (raw_Enrollments r) |}.

(** ** The loader and the halts, as the spec words them *)

(** The first candidate, in order, that exists and parses. *)
Fixpoint first_parsed (fs : string -> file_state) (paths : list string)
    : option DataFrame :=
  match paths with
  | [] => None
  | p :: rest =>
      match fs p with
      | Readable df => Some df
      | _ => first_parsed fs rest
      end
  end.

(** What the KPI block and the chart blocks can put on the page. *)
Definition is_kpi_or_chart (ev : event) : bool :=
  match ev with
  | EvMetric _ _ | EvLineChart _ | EvBarChart _ | EvPieChart _ => true
  | EvError (MsgKPI _) | EvError (MsgChart _ _) => true
  | _ => false
  end.

Definition is_filtered_table (ev : event) : bool :=
  match ev with
  | EvFilteredTable _ => true
  | _ => false
  end.

(** An event that is neither a KPI, a chart, one of their errors, nor
    the filtered table. *)
Definition before_dashboard (ev : event) : Prop :=
  is_kpi_or_chart ev = false /\ is_filtered_table ev = false.

(** ** Yearly series, as the spec words them *)

Definition year_is (y : Q) (r : LongRecord) : bool :=
  match Year r with
  | Some y' => Qeq_bool y' y
  | None => false
  end.

(** [series] lists, in strictly ascending year order, one entry per year
    present in [df_f], each with what [mean] makes of the [val] column of
    the rows of that year, taken in table order. *)
Definition yearly_series {R} (mean : list (option Q) -> R)
    (val : LongRecord -> option Q)
    (df_f : list LongRecord) (series : list (Q * R)) : Prop :=
  StronglySorted Qlt (map fst series) /\
  (forall y m, In (y, m) series ->
               (exists r, In r df_f /\ Year r = Some y) /\
               m = mean (map val (filter (year_is y) df_f))) /\
  (forall r y, In r df_f -> Year r = Some y ->
               exists y' m, In (y', m) series /\ y == y').

(** ** Guarded sections, as the spec and as the code have them *)

(** Whether one of a KPI's own steps raises: showing it, or (for the
    enrollment total) computing it. *)
Definition kpi_faults (raises : widget -> bool) (df_f : list LongRecord)
    (k : kpi) : bool :=
  raises (WMetric k) ||
  match k with
  | KEnrollments => match total_enr df_f with
                    | Raise _ => true
                    | Ok _ => false
                    end
  | _ => false
  end.

Definition kpi_shown (k : kpi) (evs : list event) : Prop :=
  exists d, In (EvMetric k d) evs.

(** The spec's reading of the guards, for the KPIs: each KPI on its own,
    so a KPI none of whose steps raises is shown whatever happens to the
    other two. *)
Definition kpis_guarded_one_by_one (raises : widget -> bool)
    (df_f : list LongRecord) : Prop :=
  forall k, kpi_faults raises df_f k = false ->
            kpi_shown k (fst (kpi_block raises df_f)).

(** The code's guards: one around the KPI block, one around each chart. *)
Inductive section :=
| SecKPI
| SecChart (c : chart).

Definition section_block (raises : widget -> bool) (s : section)
    (df_f : list LongRecord) : prog unit :=
  match s with
  | SecKPI => kpi_block raises df_f
  | SecChart c => chart_block raises c df_f
  end.

Definition section_of (w : widget) : section :=
  match w with
  | WMetric _ => SecKPI
  | WChart c => SecChart c
  end.

Definition section_faults (raises : widget -> bool) (df_f : list LongRecord)
    (s : section) : bool :=
  match s with
  | SecKPI => kpi_faults raises df_f KRetention
              || kpi_faults raises df_f KSatisfaction
              || kpi_faults raises df_f KEnrollments
  | SecChart c => raises (WChart c)
  end.

Definition section_error (s : section) (e : exception) : event :=
  match s with
  | SecKPI => EvError (MsgKPI e)
  | SecChart c => EvError (MsgChart c e)
  end.

Definition mean_display (show : Q -> display) (m : option Q) : display :=
  match m with
  | Some q => show q
  | None => ShowNA
  end.

(** Everything a section shows when none of its steps raises. *)
Definition section_output (df_f : list LongRecord) (s : section) : list event :=
  match s with
  | SecKPI =>
      match total_enr df_f with
      | Ok enr =>
          [EvMetric KRetention
             (mean_display ShowPercent (series_mean (map RetentionRate df_f)));
           EvMetric KSatisfaction
             (mean_display ShowOutOfFive
                (series_mean (map SatisfactionScore df_f)));
           EvMetric KEnrollments (ShowInt enr)]
      | Raise _ => []
      end
  | SecChart c => [chart_event c df_f]
  end.

(** ** Membership in a selection *)

(** A cell is a member of a selection when it holds a value and the
    selection lists an equal one. *)
Definition member {A} (eq : A -> A -> Prop) (c : option A) (sel : list A) : Prop :=
  exists v w, c = Some v /\ In w sel /\ eq v w.

(** A dimension lets a cell pass when nothing is selected for it, or the
    cell is a member of the selection. *)
Definition passes {A} (eq : A -> A -> Prop) (c : option A) (sel : list A) : Prop :=
  sel = [] \/ member eq c sel.

(** [sorted(df[col].dropna().unique().tolist())], comparisons given. *)
Definition options_of {A} (eqb leb : A -> A -> bool)
    (col : LongRecord -> option A) (df : list LongRecord) : list A :=
  sorted leb (unique eqb (dropna (map col df))).

(** ** Sample data *)

Definition digit_of (c : ascii) : option Z :=
  let n := nat_of_ascii c in
  if (48 <=? n)%nat && (n <=? 57)%nat then Some (Z.of_nat (n - 48)) else None.

Fixpoint parse_digits (acc : Z) (s : string) : option Z :=
  match s with
  | EmptyString => Some acc
  | String c s' =>
      match digit_of c with
      | Some d => parse_digits (10 * acc + d) s'
      | None => None
      end
  end.

(** A reader of unsigned decimal integers, to instantiate [parse_number]
    in examples. *)
Definition parse_unsigned (s : string) : option Q :=
  match s with
  | EmptyString => None
  | _ => option_map inject_Z (parse_digits 0 s)
  end.

Definition num (z : Z) : cell := Some (VNum (inject_Z z)).
Definition str (s : string) : cell := Some (VStr s).

Definition sample_columns : list string :=
  ["Year"; "Term"; "Applications"; "Admitted"; "Enrolled";
   "Retention Rate (%)"; "Student Satisfaction (%)";
   "Engineering Enrolled"; "Business Enrolled"; "Arts Enrolled";
   "Science Enrolled"].

(** The wide row of the spec's reshaping scenario. *)
Definition row_2020 : list cell :=
  [num 2020; str "Fall"; num 500; num 300; num 100;
   num 85; Some (VNum (42 # 10)); num 50; num 30; num 10; num 10].

Definition one_row_table : DataFrame :=
  {| columns := sample_columns; rows := [row_2020] |}.

(** Two years, retention 80 and 90. *)
Definition two_year_table : DataFrame :=
  {| columns := sample_columns;
     rows := [ [num 2020; str "Fall"; num 500; num 300; num 100;
                num 80; num 4; num 50; num 30; num 10; num 10];
               [num 2021; str "Fall"; num 600; num 350; num 120;
                num 90; num 3; num 60; num 30; num 20; num 10] ] |}.

(** Two long records that differ in having a year. *)
Definition rec_2020 : LongRecord :=
  {| Year := Some (inject_Z 2020); Term := str "Fall";
     Applications := Some (inject_Z 500); Admits := num 300;
     Enrolled := num 100; RetentionRate := Some (inject_Z 80);
     SatisfactionScore := Some (inject_Z 4);
     Department := str "Engineering"; EnrollmentsDept := num 50;
     Enrollments := Some (inject_Z 50) |}.

Definition rec_no_year : LongRecord :=
  {| Year := None; Term := str "Fall";
     Applications := Some (inject_Z 400); Admits := num 200;
     Enrolled := num 90; RetentionRate := Some (inject_Z 70);
     SatisfactionScore := Some (inject_Z 3);
     Department := str "Engineering"; EnrollmentsDept := num 40;
     Enrollments := Some (inject_Z 40) |}.

Definition sample_long : list LongRecord := [rec_2020; rec_no_year].

(** A raw long row whose Applications cell is not a number. *)
Definition raw_bad_applications : LongRaw :=
  {| raw_Year := str "2020"; raw_Term := str "Fall";
     raw_Applications := str "abc"; raw_Admits := num 300;
     raw_Enrolled := num 100; raw_RetentionRate := num 85;
     raw_SatisfactionScore := num 4; raw_Department := str "Arts";
     raw_EnrollmentsDept := num 10; raw_Enrollments := num 10 |}.

(** Worlds for the examples. *)
Definition no_files : string -> file_state := fun _ => Absent.

Definition only_local (df : DataFrame) : string -> file_state :=
  fun p => if String.eqb p "university_student_data.csv" then Readable df
           else Absent.

Definition never_raises : widget -> bool := fun _ => false.

Definition world_without_file : World :=
  {| files := no_files; cache := None; choices := untouched;
     presenter_raises := never_raises |}.

(** The user picked a year that the data does not have. *)
Definition world_wrong_year : World :=
  {| files := only_local one_row_table; cache := None;
     choices := {| year_choice := Some [inject_Z 1999];
                   dept_choice := None; term_choice := None |};
     presenter_raises := never_raises |}.

(** The two rows of the spec's yearly scenario. *)
Definition rec_2020_80 : LongRecord :=
  {| Year := Some (inject_Z 2020); Term := str "Fall";
     Applications := None; Admits := None; Enrolled := None;
     RetentionRate := Some (inject_Z 80); SatisfactionScore := None;
     Department := str "Arts"; EnrollmentsDept := None;
     Enrollments := None |}.

Definition rec_2021_90 : LongRecord :=
  {| Year := Some (inject_Z 2021); Term := str "Fall";
     Applications := None; Admits := None; Enrolled := None;
     RetentionRate := Some (inject_Z 90); SatisfactionScore := None;
     Department := str "Arts"; EnrollmentsDept := None;
     Enrollments := None |}.

(** A record with retention and satisfaction but no enrollment count. *)
Definition rec_no_enrollments : LongRecord :=
  {| Year := Some (inject_Z 2020); Term := str "Fall";
     Applications := Some (inject_Z 500); Admits := num 300;
     Enrolled := num 100; RetentionRate := Some (inject_Z 80);
     SatisfactionScore := Some (inject_Z 4);
     Department := str "Engineering"; EnrollmentsDept := None;
     Enrollments := None |}.

(** The presenter fails on the retention metric only. *)
Definition retention_metric_raises : widget -> bool :=
  fun w => match w with
           | WMetric KRetention => true
           | _ => false
           end.

(** A file whose four department columns are empty. *)
Definition table_without_counts : DataFrame :=
  {| columns := sample_columns;
     rows := [ [num 2020; str "Fall"; num 500; num 300; num 100;
                num 80; num 4; None; None; None; None] ] |}.

Definition world_without_counts : World :=
  {| files := only_local table_without_counts; cache := None; choices := untouched;
     presenter_raises := never_raises |}.

(** ** Further readings of the code *)

(** The test that one filter step applies to a row. *)
Definition step_keeps {A} (eqb : A -> A -> bool) (col : LongRecord -> option A)
    (sel : list A) (r : LongRecord) : bool :=
  match sel with
  | [] => true
  | _ :: _ => isin eqb (col r) sel
  end.

(** The three tests together. *)
Definition row_passes (year_sel : list Q) (dept_sel term_sel : list value)
    (r : LongRecord) : bool :=
  step_keeps Qeq_bool Year year_sel r
  && step_keeps value_eqb Department dept_sel r
  && step_keeps value_eqb Term term_sel r.

Definition has_value {A} (c : option A) : bool :=
  match c with
  | Some _ => true
  | None => false
  end.

Definition is_sidebar (ev : event) : bool :=
  match ev with
  | EvSidebar _ _ _ => true
  | _ => false
  end.

(** The cleaned department names in the order [sorted] gives them. *)
Definition four_departments : list value :=
  [VStr "Arts"; VStr "Business"; VStr "Engineering"; VStr "Science"].

(** A number that is an integer. *)
Definition integral (q : Q) : Prop := exists n : Z, q == inject_Z n.

(** Counts on which the exact sum is the sum the column computes:
    integers whose absolute values add up to less than 2^53, so that, in
    whatever order they are added, a 64-bit integer sum does not wrap and
    a float sum does not round. *)
Definition exact_counts (xs : list Q) : Prop :=
  Forall integral xs /\ total (map Qabs xs) < inject_Z (2 ^ 53).

(** A file without the Term column. *)
Definition table_without_term : DataFrame :=
  {| columns := ["Year"; "Applications"; "Admitted"; "Enrolled";
                 "Retention Rate (%)"; "Student Satisfaction (%)";
                 "Engineering Enrolled"; "Business Enrolled"; "Arts Enrolled";
                 "Science Enrolled"];
     rows := [ [num 2020; num 500; num 300; num 100;
                num 85; num 4; num 50; num 30; num 10; num 10] ] |}.

Definition world_without_term : World :=
  {| files := only_local table_without_term; cache := None; choices := untouched;
     presenter_raises := never_raises |}.

(** A file whose Term column holds a number and a string. *)
Definition table_mixed_term : DataFrame :=
  {| columns := sample_columns;
     rows := [ [num 2020; num 1; num 500; num 300; num 100;
                num 80; num 4; num 50; num 30; num 10; num 10];
               [num 2021; str "Fall"; num 600; num 350; num 120;
                num 90; num 3; num 60; num 30; num 20; num 10] ] |}.

Definition world_mixed_term : World :=
  {| files := only_local table_mixed_term; cache := None; choices := untouched;
     presenter_raises := never_raises |}.

Definition world_two_years : World :=
  {| files := only_local two_year_table; cache := None; choices := untouched;
     presenter_raises := never_raises |}.

(** What the page shows up to the row and column counts (lines 12-84). *)
Definition page_head (df : list LongRecord) : list event :=
  [EvTitle; EvIntro; EvSubheader "Vista rápida del conjunto de datos";
   EvPreview (firstn 5 df);
   EvShape (List.length df) (List.length long_columns)].

(** * Properties *)

(** ** Reshaping *)

Lemma index_of_In name cols :
  In name cols -> exists i, index_of name cols = Some i.
Proof.
  induction cols as [|c cols IH]; simpl; [tauto|].
  intros [->|Hin].
  - rewrite String.eqb_refl. eauto.
  - destruct (String.eqb name c); [eauto|].
    destruct (IH Hin) as [i ->]. simpl. eauto.
Qed.

Lemma select_columns_ok df :
  well_formed df ->
  select_columns df = Ok (map (wide_view df) (rows df)).
Proof.
  intros Hwf. unfold select_columns, locate, wide_view, column.
  repeat match goal with
  | |- context [index_of ?n (columns df)] =>
      let H := fresh in
      destruct (@index_of_In n (columns df)) as [? H];
      [ apply Hwf; unfold required_columns; simpl; tauto
      | rewrite H; clear H ]
  end.
  reflexivity.
Qed.

Lemma melt_rows_blocks ws :
  melt_rows ws =
    map (melt_cell ("Engineering Enrolled", wEngineering)) ws
    ++ map (melt_cell ("Business Enrolled", wBusiness)) ws
    ++ map (melt_cell ("Arts Enrolled", wArts)) ws
    ++ map (melt_cell ("Science Enrolled", wScience)) ws.
Proof. unfold melt_rows. simpl. now rewrite app_nil_r. Qed.

Lemma mem_string_iff name cols :
  mem String.eqb name cols = true <-> In name cols.
Proof.
  unfold mem. rewrite existsb_exists. split.
  - intros [c [Hc He]]. apply String.eqb_eq in He. now subst.
  - intros Hin. exists name. split; [exact Hin|apply String.eqb_refl].
Qed.

Lemma value_name_free df :
  ~ In value_name (columns df) ->
  mem String.eqb value_name (columns df) = false.
Proof.
  intros Hn. destruct (mem String.eqb value_name (columns df)) eqn:H;
    [|reflexivity].
  apply mem_string_iff in H. contradiction.
Qed.

Lemma reshape_ok df :
  meltable df ->
  reshape df = Ok (map clean_row (melt_rows (map (wide_view df) (rows df)))).
Proof.
  intros [Hwf Hfree]. unfold reshape, melt.
  rewrite (value_name_free _ Hfree). now rewrite select_columns_ok.
Qed.

(** What a successful reshaping of a well-formed table returned. *)
Lemma reshape_Ok_inv df long :
  well_formed df ->
  reshape df = Ok long ->
  long = map clean_row (melt_rows (map (wide_view df) (rows df))).
Proof.
  intros Hwf. unfold reshape, melt.
  destruct (mem String.eqb value_name (columns df)); [discriminate|].
  rewrite select_columns_ok by exact Hwf. simpl. now inversion 1.
Qed.

Lemma nth_error_block {A} (l1 l2 : list A) i :
  nth_error (l1 ++ l2) (List.length l1 + i) = nth_error l2 i.
Proof.
  rewrite nth_error_app2 by lia. f_equal. lia.
Qed.

(** Where the record of wide row [i] for the [k]-th department sits. *)
Lemma reshape_nth df i k dept col row :
  nth_error (rows df) i = Some row ->
  nth_error departments k = Some (dept, col) ->
  nth_error (map clean_row (melt_rows (map (wide_view df) (rows df))))
            (k * List.length (rows df) + i)
  = Some (long_row_of df row dept col).
Proof.
  intros Hrow Hk.
  rewrite melt_rows_blocks, !map_app, !map_map.
  set (n := List.length (rows df)).
  assert (Hlen : forall f : list cell -> LongRaw,
             List.length (map f (rows df)) = n)
    by (intros; apply length_map).
  assert (Hi : (i < n)%nat)
    by (apply nth_error_Some; congruence).
  destruct k as [|[|[|[|k]]]]; simpl in Hk; inversion Hk; subst; clear Hk.
  - simpl. rewrite nth_error_app1 by (rewrite Hlen; lia).
    rewrite nth_error_map, Hrow. reflexivity.
  - replace (1 * n + i)%nat with (n + i)%nat by lia.
    rewrite <- (Hlen (fun x => clean_row (melt_cell ("Engineering Enrolled", wEngineering) (wide_view df x)))) at 1.
    rewrite nth_error_block.
    rewrite nth_error_app1 by (rewrite Hlen; lia).
    rewrite nth_error_map, Hrow. reflexivity.
  - replace (2 * n + i)%nat with (n + (n + i))%nat by lia.
    rewrite <- (Hlen (fun x => clean_row (melt_cell ("Engineering Enrolled", wEngineering) (wide_view df x)))) at 1.
    rewrite nth_error_block.
    rewrite <- (Hlen (fun x => clean_row (melt_cell ("Business Enrolled", wBusiness) (wide_view df x)))) at 1.
    rewrite nth_error_block.
    rewrite nth_error_app1 by (rewrite Hlen; lia).
    rewrite nth_error_map, Hrow. reflexivity.
  - replace (3 * n + i)%nat with (n + (n + (n + i)))%nat by lia.
    rewrite <- (Hlen (fun x => clean_row (melt_cell ("Engineering Enrolled", wEngineering) (wide_view df x)))) at 1.
    rewrite nth_error_block.
    rewrite <- (Hlen (fun x => clean_row (melt_cell ("Business Enrolled", wBusiness) (wide_view df x)))) at 1.
    rewrite nth_error_block.
    rewrite <- (Hlen (fun x => clean_row (melt_cell ("Arts Enrolled", wArts) (wide_view df x)))) at 1.
    rewrite nth_error_block.
    rewrite nth_error_map, Hrow. reflexivity.
  - destruct k; discriminate.
Qed.

Lemma sample_columns_well_formed rs :
  well_formed {| columns := sample_columns; rows := rs |}.
Proof.
  intros c Hc. unfold required_columns in Hc. simpl in *.
  intuition (subst; auto 20).
Qed.

Lemma sample_columns_meltable rs :
  meltable {| columns := sample_columns; rows := rs |}.
Proof.
  split; [apply sample_columns_well_formed|].
  simpl. intros H. repeat (destruct H as [H|H]; [discriminate|]). exact H.
Qed.

(** C2.  A well-formed wide table with R rows (one that has the eleven
    columns, and no column already called EnrollmentsDept, which [melt]
    refuses) reshapes, without error, to 4R rows.  The record of wide row [i] for the [k]-th department of
    (Engineering, Business, Arts, Science) sits at position [k * R + i];
    it carries the row's scalar fields, the department name with the
    suffix " Enrolled" removed, and the department's count as both
    [EnrollmentsDept] and [Enrollments].  Every output record is one of
    these. *)
Theorem reshape_four_records_per_row (df : DataFrame) :
  meltable df ->
  exists long,
    reshape df = Ok long /\
    List.length long = (4 * List.length (rows df))%nat /\
    (forall i row k dept col,
        nth_error (rows df) i = Some row ->
        nth_error departments k = Some (dept, col) ->
        nth_error long (k * List.length (rows df) + i)
        = Some (long_row_of df row dept col)) /\
    (forall j r,
        nth_error long j = Some r ->
        exists i row k dept col,
          j = (k * List.length (rows df) + i)%nat /\
          nth_error (rows df) i = Some row /\
          nth_error departments k = Some (dept, col) /\
          r = long_row_of df row dept col).
Proof.
  intros Hwf. eexists. split; [apply reshape_ok, Hwf|].
  assert (Hlen : List.length
            (map clean_row (melt_rows (map (wide_view df) (rows df))))
          = (4 * List.length (rows df))%nat).
  { rewrite melt_rows_blocks, length_map, !length_app, !length_map. lia. }
  split; [exact Hlen|]. split.
  - intros; now apply reshape_nth.
  - intros j r Hj.
    set (n := List.length (rows df)) in *.
    assert (Hlt : (j < 4 * n)%nat)
      by (rewrite <- Hlen; apply nth_error_Some; congruence).
    assert (Hn : (n <> 0)%nat) by lia.
    assert (Hi : (j mod n < n)%nat) by (apply Nat.mod_upper_bound, Hn).
    assert (Hk : (j / n < 4)%nat) by (apply Nat.Div0.div_lt_upper_bound; lia).
    destruct (nth_error (rows df) (j mod n)) as [row|] eqn:Hrow;
      [|apply nth_error_None in Hrow; fold n in Hrow; lia].
    destruct (nth_error departments (j / n)) as [[dept col]|] eqn:Hd;
      [|apply nth_error_None in Hd; simpl in Hd; lia].
    exists (j mod n)%nat, row, (j / n)%nat, dept, col.
    assert (Hj' : j = (j / n * n + j mod n)%nat).
    { rewrite (Nat.div_mod_eq j n) at 1. lia. }
    repeat split; auto.
    pose proof (reshape_nth df _ _ Hrow Hd) as Hnth.
    fold n in Hnth. rewrite <- Hj' in Hnth. congruence.
Qed.

Lemma reshape_four_records_per_row_witness :
  exists long,
    reshape one_row_table = Ok long /\
    List.length long = (4 * List.length (rows one_row_table))%nat /\
    (forall i row k dept col,
        nth_error (rows one_row_table) i = Some row ->
        nth_error departments k = Some (dept, col) ->
        nth_error long (k * List.length (rows one_row_table) + i)
        = Some (long_row_of one_row_table row dept col)) /\
    (forall j r,
        nth_error long j = Some r ->
        exists i row k dept col,
          j = (k * List.length (rows one_row_table) + i)%nat /\
          nth_error (rows one_row_table) i = Some row /\
          nth_error departments k = Some (dept, col) /\
          r = long_row_of one_row_table row dept col).
Proof.
  apply (@reshape_four_records_per_row one_row_table).
  apply sample_columns_meltable.
Defined.

Lemma numeric_sum_numbers cs :
  Forall is_number cs -> exists t, numeric_sum cs = Some t.
Proof.
  induction 1 as [|c cs [q ->] _ [t IH]]; simpl; [eauto|].
  rewrite IH. simpl. eauto.
Qed.

(** C9.  For a wide row whose four department cells are numbers, the sum
    of [EnrollmentsDept] over the four long records made from that row
    equals the sum of the row's four department columns. *)
Theorem enrollments_round_trip (df : DataFrame) (long : list LongRaw)
    (i : nat) (row : list cell) :
  well_formed df ->
  reshape df = Ok long ->
  nth_error (rows df) i = Some row ->
  Forall is_number (wide_dept_cells df row) ->
  exists t,
    numeric_sum (dept_cells_of_row long (List.length (rows df)) i) = Some t /\
    numeric_sum (wide_dept_cells df row) = Some t.
Proof.
  intros Hwf Hre Hrow Hnum.
  apply (reshape_Ok_inv Hwf) in Hre. subst long.
  assert (Heq : dept_cells_of_row
            (map clean_row (melt_rows (map (wide_view df) (rows df))))
            (List.length (rows df)) i
          = wide_dept_cells df row).
  { unfold dept_cells_of_row, positions_of_row, wide_dept_cells, departments.
    set (n := List.length (rows df)).
    pose proof (fun k dept col => @reshape_nth df i k dept col row Hrow) as H.
    fold n in H.
    pose proof (H 0%nat _ _ eq_refl) as H0.
    pose proof (H 1%nat _ _ eq_refl) as H1.
    pose proof (H 2%nat _ _ eq_refl) as H2.
    pose proof (H 3%nat _ _ eq_refl) as H3.
    replace (0 * n + i)%nat with i in H0 by lia.
    replace (1 * n + i)%nat with (n + i)%nat in H1 by lia.
    cbn [map]. rewrite H0, H1, H2, H3. reflexivity. }
  rewrite Heq.
  destruct (numeric_sum_numbers Hnum) as [t Ht]. eauto.
Qed.

Lemma enrollments_round_trip_witness :
  exists t,
    numeric_sum (dept_cells_of_row
                   (map clean_row
                      (melt_rows (map (wide_view one_row_table)
                                      (rows one_row_table))))
                   1 0) = Some t /\
    numeric_sum (wide_dept_cells one_row_table row_2020) = Some t.
Proof.
  apply (@enrollments_round_trip one_row_table _ 0%nat row_2020).
  - apply sample_columns_well_formed.
  - apply reshape_ok, sample_columns_meltable.
  - reflexivity.
  - unfold wide_dept_cells, is_number. simpl.
    repeat constructor; eexists; reflexivity.
Defined.

(** ** Filtering *)

Lemma value_eqb_iff a b : value_eqb a b = true <-> value_eq a b.
Proof.
  destruct a, b; simpl; try (split; [discriminate|tauto]).
  - apply Qeq_bool_iff.
  - apply String.eqb_eq.
Qed.

Lemma dropna_In {A} (l : list (option A)) v :
  In v (dropna l) <-> In (Some v) l.
Proof.
  induction l as [|[x|] l IH]; simpl; [tauto| |].
  - rewrite IH. split; intros [H|H]; auto; left; congruence.
  - rewrite IH. split; [auto|]. intros [H|H]; [discriminate|auto].
Qed.

Section Selections.
Variable A : Type.
Variable eqb : A -> A -> bool.
Variable eq : A -> A -> Prop.
Hypothesis eqb_iff : forall a b, eqb a b = true <-> eq a b.
Hypothesis eq_refl' : forall a, eq a a.

Lemma mem_iff v sel : mem eqb v sel = true <-> exists w, In w sel /\ eq v w.
Proof.
  unfold mem. rewrite existsb_exists.
  split; intros [w [Hin H]]; exists w; split; auto; now apply eqb_iff.
Qed.

Lemma isin_iff c sel : isin eqb c sel = true <-> member eq c sel.
Proof.
  unfold isin, member. destruct c as [v|].
  - rewrite mem_iff. split.
    + intros [w [Hin H]]. exists v, w. auto.
    + intros [v' [w [Hv [Hin H]]]]. inversion Hv; subst. eauto.
  - split; [discriminate|]. intros [v [w [Hv _]]]. discriminate.
Qed.

Lemma filter_by_In (col : LongRecord -> option A) sel df r :
  In r (filter_by eqb col sel df) <-> In r df /\ passes eq (col r) sel.
Proof.
  unfold filter_by, passes. destruct sel as [|s sel].
  - tauto.
  - rewrite filter_In, isin_iff. split.
    + intros [? ?]; auto.
    + intros [? [?|?]]; [discriminate|auto].
Qed.

Lemma unique_acc_sub seen l y : In y (unique_acc eqb seen l) -> In y l.
Proof.
  revert seen. induction l as [|x l IH]; simpl; intros seen; [tauto|].
  destruct (mem eqb x seen); simpl.
  - intros H. right. eapply IH, H.
  - intros [H|H]; [auto|]. right. eapply IH, H.
Qed.

Lemma unique_acc_covers seen l x :
  In x l ->
  exists w, (In w seen \/ In w (unique_acc eqb seen l)) /\ eq x w.
Proof.
  revert seen. induction l as [|y l IH]; simpl; intros seen; [tauto|].
  intros [->|Hin].
  - destruct (mem eqb x seen) eqn:Hm.
    + apply mem_iff in Hm. destruct Hm as [w [Hw He]]. eauto.
    + exists x. simpl. auto.
  - destruct (mem eqb y seen) eqn:Hm.
    + apply IH, Hin.
    + destruct (IH (y :: seen) Hin) as [w [[Hw|Hw] He]]; exists w; simpl.
      * destruct Hw as [->|Hw]; auto.
      * auto.
Qed.

Lemma unique_covers l x : In x l -> exists w, In w (unique eqb l) /\ eq x w.
Proof.
  intros Hin. destruct (unique_acc_covers [] l x Hin) as [w [[[]|Hw] He]].
  eauto.
Qed.

Variable leb : A -> A -> bool.

Lemma insert_In x y l : In y (insert leb x l) <-> y = x \/ In y l.
Proof.
  induction l as [|z l IH]; simpl.
  - split; intros [H|H]; auto.
  - destruct (leb x z); simpl.
    + split; intros [H|H]; auto.
    + rewrite IH. split; intros H; intuition auto.
Qed.

Lemma sorted_In y l : In y (sorted leb l) <-> In y l.
Proof.
  induction l as [|x l IH]; simpl; [tauto|].
  rewrite insert_In, IH. split; intros [H|H]; auto.
Qed.

Lemma options_empty_iff col df :
  options_of eqb leb col df = [] <-> forall r, In r df -> col r = None.
Proof.
  unfold options_of. split.
  - intros Hnil r Hr. destruct (col r) as [v|] eqn:Hv; [|reflexivity].
    assert (Hin : In v (dropna (map col df)))
      by (apply dropna_In; rewrite <- Hv; now apply in_map).
    destruct (unique_covers _ _ Hin) as [w [Hw _]].
    apply sorted_In in Hw. rewrite Hnil in Hw. destruct Hw.
  - intros Hall.
    assert (Hd : dropna (map col df) = []).
    { destruct (dropna (map col df)) as [|v l] eqn:Hd; [reflexivity|].
      assert (Hin : In v (dropna (map col df))) by (rewrite Hd; now left).
      apply dropna_In, in_map_iff in Hin. destruct Hin as [r [Hr Hin]].
      rewrite (Hall r Hin) in Hr. discriminate. }
    rewrite Hd. reflexivity.
Qed.

Lemma options_member col df r v :
  In r df -> col r = Some v -> member eq (col r) (options_of eqb leb col df).
Proof.
  intros Hr Hv.
  assert (Hin : In v (dropna (map col df)))
    by (apply dropna_In; rewrite <- Hv; now apply in_map).
  destruct (unique_covers _ _ Hin) as [w [Hw He]].
  exists v, w. repeat split; auto. now apply sorted_In.
Qed.

(** Under the options of its own column as selection, a row of the table
    passes exactly when its cell is present or the column has no value at
    all. *)
Lemma passes_options col df r :
  In r df ->
  (passes eq (col r) (options_of eqb leb col df) <->
   col r <> None \/ forall r', In r' df -> col r' = None).
Proof.
  intros Hr. unfold passes. rewrite options_empty_iff. split.
  - intros [H|[v [w [Hv _]]]]; [now right|left; congruence].
  - intros [H|H]; [|now left].
    destruct (col r) as [v|] eqn:Hv; [|congruence].
    right. rewrite <- Hv. eapply options_member; eauto.
Qed.

End Selections.

Lemma apply_filters_In year_sel dept_sel term_sel df r :
  In r (apply_filters year_sel dept_sel term_sel df) <->
  In r df /\
  passes Qeq (Year r) year_sel /\
  passes value_eq (Department r) dept_sel /\
  passes value_eq (Term r) term_sel.
Proof.
  unfold apply_filters.
  rewrite !(@filter_by_In _ value_eqb value_eq value_eqb_iff),
          (@filter_by_In _ Qeq_bool Qeq Qeq_bool_iff).
  tauto.
Qed.

(** C1.  For all selections, a record is in the filter's output exactly
    when it is in the table and, for each of Year, Department and Term,
    either the selection is empty or the record's cell is a member of
    it. *)
Theorem filter_output_iff (year_sel : list Q) (dept_sel term_sel : list value)
    (df : list LongRecord) (r : LongRecord) :
  In r (apply_filters year_sel dept_sel term_sel df) <->
  In r df /\
  (year_sel = [] \/ member Qeq (Year r) year_sel) /\
  (dept_sel = [] \/ member value_eq (Department r) dept_sel) /\
  (term_sel = [] \/ member value_eq (Term r) term_sel).
Proof. apply apply_filters_In. Qed.

Lemma py_sorted_Ok l l' : py_sorted l = Ok l' -> l' = sorted value_leb l.
Proof.
  unfold py_sorted. destruct (same_kind l); [|discriminate].
  now inversion 1.
Qed.

Lemma value_eq_refl a : value_eq a a.
Proof. destruct a; simpl; reflexivity. Qed.

(** C10.  With the three multiselects left at their defaults, each
    default is empty exactly when its column has no value at all, and a
    record is in the filtered output exactly when it is in the table and,
    for each of Year, Department and Term, its cell is present or the
    whole column is missing.  So a record with a missing cell is shown
    only if that column has no value anywhere. *)
Theorem default_selection_excludes_missing (df : list LongRecord)
    (depts terms : list value) :
  depts_of df = Ok depts ->
  terms_of df = Ok terms ->
  let year_sel := multiselect (years_of df) (years_of df) None in
  let dept_sel := multiselect depts depts None in
  let term_sel := multiselect terms terms None in
  (year_sel = [] <-> forall r, In r df -> Year r = None) /\
  (dept_sel = [] <-> forall r, In r df -> Department r = None) /\
  (term_sel = [] <-> forall r, In r df -> Term r = None) /\
  forall r,
    In r (apply_filters year_sel dept_sel term_sel df) <->
    In r df /\
    (Year r <> None \/ forall r', In r' df -> Year r' = None) /\
    (Department r <> None \/ forall r', In r' df -> Department r' = None) /\
    (Term r <> None \/ forall r', In r' df -> Term r' = None).
Proof.
  intros Hd Ht. simpl.
  apply py_sorted_Ok in Hd, Ht. subst depts terms.
  change (years_of df) with (options_of Qeq_bool Qle_bool Year df).
  change (sorted value_leb (unique value_eqb (dropna (map Department df))))
    with (options_of value_eqb value_leb Department df).
  change (sorted value_leb (unique value_eqb (dropna (map Term df))))
    with (options_of value_eqb value_leb Term df).
  split; [apply (@options_empty_iff _ Qeq_bool Qeq Qeq_bool_iff Qeq_refl Qle_bool)|].
  split; [apply (@options_empty_iff _ value_eqb value_eq value_eqb_iff
                   value_eq_refl value_leb)|].
  split; [apply (@options_empty_iff _ value_eqb value_eq value_eqb_iff
                   value_eq_refl value_leb)|].
  intros r. split.
  - intros Hin. apply apply_filters_In in Hin.
    destruct Hin as [Hr [Hy [Hdp Htm]]].
    apply (@passes_options _ Qeq_bool Qeq Qeq_bool_iff Qeq_refl Qle_bool) in Hy; auto.
    apply (@passes_options _ value_eqb value_eq value_eqb_iff
                   value_eq_refl value_leb) in Hdp, Htm; auto.
  - intros [Hr [Hy [Hdp Htm]]]. apply apply_filters_In.
    split; [exact Hr|].
    split; [|split].
    + now apply (@passes_options _ Qeq_bool Qeq Qeq_bool_iff Qeq_refl Qle_bool).
    + now apply (@passes_options _ value_eqb value_eq value_eqb_iff
                   value_eq_refl value_leb).
    + now apply (@passes_options _ value_eqb value_eq value_eqb_iff
                   value_eq_refl value_leb).
Qed.

Lemma default_selection_excludes_missing_witness :
  depts_of sample_long = Ok [VStr "Engineering"] /\
  terms_of sample_long = Ok [VStr "Fall"] /\
  ~ In rec_no_year
      (apply_filters (years_of sample_long)
                     [VStr "Engineering"] [VStr "Fall"] sample_long).
Proof.
  split; [reflexivity|]. split; [reflexivity|].
  destruct (@default_selection_excludes_missing sample_long
              [VStr "Engineering"] [VStr "Fall"] eq_refl eq_refl)
    as (_ & _ & _ & H).
  intros Hin. apply H in Hin. destruct Hin as (_ & [Hy|Hy] & _).
  - now apply Hy.
  - specialize (Hy rec_2020 (or_introl eq_refl)). discriminate.
Defined.

(** ** Coercion *)

Section CoercionProperties.
Variable parse_number : string -> option Q.

Lemma coerce_int_column_Ok col :
  coerce_int_column parse_number col = Ok (to_numeric parse_number col).
Proof.
  unfold coerce_int_column, astype_Int64, try_except.
  now destruct (forallb _ _).
Qed.

Lemma nth_map_middle {A B} (g : A -> B) pre x rest d :
  nth (List.length pre) (map g (pre ++ x :: rest)) d = g x.
Proof.
  rewrite map_app, app_nth2 by (rewrite length_map; lia).
  rewrite length_map, Nat.sub_diag. reflexivity.
Qed.

Lemma assign_columns_rowwise pre rest :
  let df := pre ++ rest in
  assign_columns rest
    (to_numeric parse_number (map raw_Year df))
    (to_numeric parse_number (map raw_Applications df))
    (to_numeric parse_number (map raw_Enrollments df))
    (to_numeric parse_number (map raw_RetentionRate df))
    (to_numeric parse_number (map raw_SatisfactionScore df))
    (List.length pre)
  = map (coerce_row parse_number) rest.
Proof.
  revert pre. induction rest as [|r rest IH]; intros pre; simpl; [reflexivity|].
  unfold to_numeric. rewrite !map_map, !nth_map_middle. f_equal.
  specialize (IH (pre ++ [r])). simpl in IH.
  rewrite <- app_assoc, length_app, Nat.add_1_r in IH. simpl in IH.
  unfold to_numeric in IH. rewrite !map_map in IH. exact IH.
Qed.

Lemma coerce_rowwise df :
  coerce parse_number df = Ok (map (coerce_row parse_number) df).
Proof.
  unfold coerce, coerce_float_column. rewrite !coerce_int_column_Ok. simpl.
  f_equal. apply (assign_columns_rowwise []).
Qed.

Lemma to_numeric_cell_coerced c :
  coerced parse_number c (to_numeric_cell parse_number c).
Proof.
  destruct c as [[q|s]|]; simpl.
  - constructor.
  - destruct (parse_number s) eqn:Hs; now constructor.
  - constructor.
Qed.

(** C7.  The coercion stage never raises.  It keeps every row, in place.
    In each row, each cell of Year, Applications, Enrollments,
    RetentionRate and SatisfactionScore is coerced on its own: a cell
    that fails to parse comes out missing, a string that parses comes out
    as its number, a number is kept, a missing cell stays missing; and
    the row's other fields are untouched. *)
Theorem coercion_is_cellwise (df : list LongRaw) :
  exists df',
    coerce parse_number df = Ok df' /\
    List.length df' = List.length df /\
    (forall i r,
        nth_error df i = Some r ->
        exists r',
          nth_error df' i = Some r' /\
          coerced parse_number (raw_Year r) (Year r') /\
          coerced parse_number (raw_Applications r) (Applications r') /\
          coerced parse_number (raw_Enrollments r) (Enrollments r') /\
          coerced parse_number (raw_RetentionRate r) (RetentionRate r') /\
          coerced parse_number (raw_SatisfactionScore r)
                  (SatisfactionScore r') /\
          Term r' = raw_Term r /\
          Department r' = raw_Department r /\
          Admits r' = raw_Admits r /\
          Enrolled r' = raw_Enrolled r /\
          EnrollmentsDept r' = raw_EnrollmentsDept r) /\
    (forall c o, fails_to_parse parse_number c ->
                 coerced parse_number c o -> o = None).
Proof.
  exists (map (coerce_row parse_number) df).
  split; [apply coerce_rowwise|].
  split; [apply length_map|]. split.
  - intros i r Hr. exists (coerce_row parse_number r).
    rewrite nth_error_map, Hr. simpl.
    repeat split; apply to_numeric_cell_coerced.
  - intros c o [s [-> Hs]] Hco. inversion Hco; subst; congruence.
Qed.

End CoercionProperties.

(** The spec's reshaping scenario, through reshaping and coercion. *)
Example reshape_scenario :
  (raw <- reshape one_row_table ;; coerce parse_unsigned raw)
  = Ok (map (fun d : string * Z =>
               {| Year := Some (inject_Z 2020); Term := str "Fall";
                  Applications := Some (inject_Z 500); Admits := num 300;
                  Enrolled := num 100; RetentionRate := Some (inject_Z 85);
                  SatisfactionScore := Some (42 # 10);
                  Department := str (fst d); EnrollmentsDept := num (snd d);
                  Enrollments := Some (inject_Z (snd d)) |})
            [("Engineering", 50%Z); ("Business", 30%Z);
             ("Arts", 10%Z); ("Science", 10%Z)]).
Proof. vm_compute. reflexivity. Qed.

(** The spec's scenario: a non-numeric string in Applications. *)
Example coerce_bad_applications :
  coerce parse_unsigned [raw_bad_applications]
  = Ok [ {| Year := Some (inject_Z 2020); Term := str "Fall";
            Applications := None; Admits := num 300;
            Enrolled := num 100; RetentionRate := Some (inject_Z 85);
            SatisfactionScore := Some (inject_Z 4);
            Department := str "Arts"; EnrollmentsDept := num 10;
            Enrollments := Some (inject_Z 10) |} ].
Proof. reflexivity. Qed.

(** ** Loading *)

Lemma try_path_guarded fs p :
  try_except (try_path fs p) (fun _ => Ok None)
  = Ok (match fs p with Readable df => Some df | _ => None end).
Proof.
  unfold try_path, path_exists, read_csv. now destruct (fs p).
Qed.

Lemma load_from_first_parsed fs paths :
  load_from fs paths = Ok (first_parsed fs paths).
Proof.
  induction paths as [|p rest IH]; simpl; [reflexivity|].
  rewrite try_path_guarded. simpl. now destruct (fs p).
Qed.

Lemma first_parsed_Some fs paths df :
  first_parsed fs paths = Some df <->
  exists pre p post,
    paths = pre ++ p :: post /\
    fs p = Readable df /\
    forall q, In q pre -> forall d, fs q <> Readable d.
Proof.
  induction paths as [|p rest IH]; simpl.
  - split; [discriminate|]. intros (pre & q & post & H & _).
    destruct pre; discriminate.
  - split.
    + destruct (fs p) as [|e|d] eqn:Hp.
      * intros H. apply IH in H. destruct H as (pre & q & post & -> & Hq & Hpre).
        exists (p :: pre), q, post. repeat split; auto.
        intros x [<-|Hx]; [congruence|auto].
      * intros H. apply IH in H. destruct H as (pre & q & post & -> & Hq & Hpre).
        exists (p :: pre), q, post. repeat split; auto.
        intros x [<-|Hx]; [congruence|auto].
      * intros H. inversion H; subst. exists [], p, rest. repeat split; auto.
    + intros (pre & q & post & Heq & Hq & Hpre).
      destruct pre as [|x pre]; simpl in Heq; inversion Heq; subst.
      * now rewrite Hq.
      * assert (Hx : forall d, fs x <> Readable d) by (apply Hpre; now left).
        destruct (fs x) as [|e|d] eqn:Hfx; [| |now elim (Hx d)];
          apply IH; exists pre, q, post; repeat split; auto;
          intros; apply Hpre; now right.
Qed.

Lemma first_parsed_None fs paths :
  first_parsed fs paths = None <->
  forall p, In p paths -> forall d, fs p <> Readable d.
Proof.
  induction paths as [|p rest IH]; simpl.
  - split; [intros _ ? []|reflexivity].
  - destruct (fs p) as [|e|d] eqn:Hp.
    + rewrite IH. split.
      * intros H q [<-|Hq]; [congruence|auto].
      * intros H q Hq. apply H. now right.
    + rewrite IH. split.
      * intros H q [<-|Hq]; [congruence|auto].
      * intros H q Hq. apply H. now right.
    + split; [discriminate|]. intros H. elim (H p (or_introl eq_refl) d Hp).
Qed.

Lemma load_data_miss c fs :
  cache_lookup c = None ->
  load_data c fs = Ok (first_parsed fs DATA_PATHS).
Proof.
  intros H. unfold load_data. rewrite H. apply load_from_first_parsed.
Qed.

Lemma load_data_hit c fs v :
  cache_lookup c = Some v -> load_data c fs = Ok v.
Proof. intros H. unfold load_data. now rewrite H. Qed.

Section ScriptProperties.
Variable parse_number : string -> option Q.

Lemma script_without_data w :
  load_data (cache w) (files w) = Ok None ->
  script parse_number w = ([EvTitle; EvIntro; EvError MsgNoFile], Halted).
Proof.
  intros H. unfold script, filtered, load_and_reshape.
  rewrite H. reflexivity.
Qed.

(** C4.  Over any list of candidate paths the loader's loop never
    raises: it returns the table of the first candidate that exists and
    parses, having passed over every earlier candidate that is absent or
    unreadable, and returns the "no data" value exactly when no candidate
    parses.  The script's loader runs that loop over its two paths
    whenever the cache serves no entry (none stored, or one of 600 s or
    more); an entry younger than that is returned as it is, without
    looking at the files.  So, the cache serving nothing and no candidate
    parsing, the loader returns "no data"; and whenever it returns
    "no data" the run shows the title, the introduction and the
    instructional error, and halts: nothing of the reshaping, no warning,
    no KPI and no chart. *)
Theorem loader_first_parsed_else_halt :
  (forall fs paths,
      exists r,
        load_from fs paths = Ok r /\
        (forall df,
            r = Some df <->
            exists pre p post,
              paths = pre ++ p :: post /\
              fs p = Readable df /\
              forall q, In q pre -> forall d, fs q <> Readable d) /\
        (r = None <-> forall p, In p paths -> forall d, fs p <> Readable d)) /\
  (forall w,
      cache_lookup (cache w) = None ->
      load_data (cache w) (files w) = load_from (files w) DATA_PATHS) /\
  (forall w v,
      cache_lookup (cache w) = Some v ->
      load_data (cache w) (files w) = Ok v) /\
  (forall w,
      cache_lookup (cache w) = None ->
      (forall p, In p DATA_PATHS -> forall d, files w p <> Readable d) ->
      load_data (cache w) (files w) = Ok None) /\
  (forall w,
      load_data (cache w) (files w) = Ok None ->
      script parse_number w = ([EvTitle; EvIntro; EvError MsgNoFile], Halted)).
Proof.
  split; [|split; [|split; [|split]]].
  - intros fs paths. exists (first_parsed fs paths).
    split; [apply load_from_first_parsed|].
    split; [intros df; apply first_parsed_Some|apply first_parsed_None].
  - intros w Hmiss. unfold load_data. now rewrite Hmiss.
  - intros w v Hhit. now apply load_data_hit.
  - intros w Hmiss Hnone. rewrite (@load_data_miss (cache w) (files w) Hmiss).
    f_equal. now apply first_parsed_None.
  - intros w. apply script_without_data.
Qed.

End ScriptProperties.

Lemma loader_first_parsed_else_halt_witness :
  load_data (cache world_without_file) (files world_without_file) = Ok None /\
  script parse_unsigned world_without_file
  = ([EvTitle; EvIntro; EvError MsgNoFile], Halted).
Proof.
  destruct (loader_first_parsed_else_halt parse_unsigned)
    as (_ & _ & _ & Hnone & Hhalt).
  assert (Hload : load_data (cache world_without_file)
                            (files world_without_file) = Ok None).
  { apply Hnone; [reflexivity|]. intros p _ d. discriminate. }
  split; [exact Hload|]. apply Hhalt, Hload.
Defined.

(** ** The empty filter result *)

Lemma pbind_events {A B} (P : event -> Prop) (m : prog A) (k : A -> prog B) :
  Forall P (fst m) ->
  (forall a, Forall P (fst (k a))) ->
  Forall P (fst (pbind m k)).
Proof.
  intros Hm Hk. destruct m as [evs [a| e|]]; simpl in *; auto.
  specialize (Hk a). destruct (k a) as [evs' r]. simpl in *.
  apply Forall_app; auto.
Qed.

Lemma lift_events {A} (P : event -> Prop) (m : exn A) : Forall P (fst (lift m)).
Proof. destruct m; constructor. Qed.

Lemma emit_events (P : event -> Prop) ev : P ev -> Forall P (fst (emit ev)).
Proof. intros H. simpl. auto. Qed.

Section EmptyFilter.
Variable parse_number : string -> option Q.

Lemma validate_events : Forall before_dashboard (fst validate).
Proof. vm_compute. constructor. Qed.

Lemma filtered_events w :
  Forall before_dashboard (fst (filtered parse_number w)).
Proof.
  unfold filtered, load_and_reshape.
  repeat first
    [ apply pbind_events; [|intros]
    | apply lift_events
    | apply emit_events; split; reflexivity
    | apply validate_events
    | match goal with
      | |- Forall _ (fst (match ?x with _ => _ end)) => destruct x
      end
    | constructor ].
Qed.

(** C3.  Whenever the filters leave no row, the run shows the "no rows"
    warning right after what it had already shown and halts there: the
    outcome is the halt, not an exception, and nothing shown is a KPI, a
    chart, a KPI or chart error, or the filtered table. *)
Theorem empty_filter_stops (w : World) (evs : list event) :
  filtered parse_number w = (evs, Return []) ->
  script parse_number w = (evs ++ [EvWarning MsgNoRows], Halted) /\
  Forall before_dashboard (evs ++ [EvWarning MsgNoRows]).
Proof.
  intros H. split.
  - unfold script. rewrite H. reflexivity.
  - apply Forall_app. split.
    + pose proof (filtered_events w) as Hev. now rewrite H in Hev.
    + repeat constructor.
Qed.

End EmptyFilter.

Lemma empty_filter_stops_witness :
  exists evs,
    filtered parse_unsigned world_wrong_year = (evs, Return []) /\
    script parse_unsigned world_wrong_year
    = (evs ++ [EvWarning MsgNoRows], Halted).
Proof.
  exists (fst (filtered parse_unsigned world_wrong_year)).
  assert (H : filtered parse_unsigned world_wrong_year
              = (fst (filtered parse_unsigned world_wrong_year), Return []))
    by (vm_compute; reflexivity).
  split; [exact H|].
  apply (@empty_filter_stops parse_unsigned world_wrong_year _ H).
Defined.

(** ** Yearly series *)

Lemma insert_ascending x s :
  StronglySorted Qlt s ->
  (forall y, In y s -> ~ x == y) ->
  StronglySorted Qlt (insert Qle_bool x s).
Proof.
  induction s as [|a s IH]; simpl; intros Hs Hx.
  - repeat constructor.
  - inversion Hs as [|? ? Hs' Ha]; subst.
    destruct (Qle_bool x a) eqn:Hle.
    + apply Qle_bool_iff in Hle.
      assert (Hlt : x < a).
      { destruct (Qle_lt_or_eq _ _ Hle) as [H|H]; [exact H|].
        elim (Hx a); auto. }
      constructor; [exact Hs|].
      constructor; [exact Hlt|].
      rewrite Forall_forall in *. intros z Hz.
      eapply Qlt_trans; [exact Hlt|auto].
    + assert (Hlt : a < x).
      { apply Qnot_le_lt. intros H. apply Qle_bool_iff in H. congruence. }
      constructor.
      * apply IH; auto.
      * rewrite Forall_forall in *. intros z Hz.
        apply insert_In in Hz. destruct Hz as [->|Hz]; auto.
Qed.

Lemma unique_acc_distinct seen l :
  StronglySorted (fun a b => ~ a == b) (unique_acc Qeq_bool seen l) /\
  forall y s, In y (unique_acc Qeq_bool seen l) -> In s seen -> ~ y == s.
Proof.
  revert seen. induction l as [|x l IH]; intros seen; simpl.
  - split; [constructor|intros ? ? []].
  - destruct (mem Qeq_bool x seen) eqn:Hm; [apply IH|].
    destruct (IH (x :: seen)) as [Hd Hs]. split.
    + constructor; [exact Hd|].
      rewrite Forall_forall. intros b Hb Hxb.
      apply (Hs b x Hb (or_introl eq_refl)). now symmetry.
    + intros y s [<-|Hy] Hin Hys.
      * assert (mem Qeq_bool x seen = true); [|congruence].
        apply (@mem_iff _ Qeq_bool Qeq Qeq_bool_iff). eauto.
      * apply (Hs y s Hy); [now right|exact Hys].
Qed.

Lemma sorted_ascending l :
  StronglySorted (fun a b => ~ a == b) l ->
  StronglySorted Qlt (sorted Qle_bool l).
Proof.
  induction 1 as [|x l Hd IH Hx]; simpl; [constructor|].
  apply insert_ascending; [exact IH|].
  intros y Hy. apply sorted_In in Hy.
  rewrite Forall_forall in Hx. auto.
Qed.

Lemma isin_single_year y r :
  isin Qeq_bool (Year r) [y] = year_is y r.
Proof.
  unfold isin, year_is, mem. destruct (Year r); simpl; [|reflexivity].
  apply orb_false_r.
Qed.

(** The grouping by year, whatever the aggregation. *)
Lemma groupby_yearly {R} (mean : list (option Q) -> R) val df_f :
  yearly_series mean val df_f (groupby Qeq_bool Qle_bool mean Year val df_f).
Proof.
  unfold yearly_series, groupby.
  set (keys := sorted Qle_bool (unique Qeq_bool (dropna (map Year df_f)))).
  split; [|split].
  - rewrite map_map. simpl. rewrite map_id.
    apply sorted_ascending, unique_acc_distinct.
  - intros y m Hin. apply in_map_iff in Hin.
    destruct Hin as [k [Hk Hin]]. inversion Hk; subst; clear Hk.
    split.
    + unfold keys in Hin.
      apply (proj1 (@sorted_In _ Qle_bool y _)) in Hin.
      apply unique_acc_sub in Hin.
      apply (proj1 (dropna_In _ _)) in Hin. apply in_map_iff in Hin.
      destruct Hin as [r [Hr Hin]]. exists r. split; [exact Hin|exact Hr].
    + rewrite (filter_ext (fun r => isin Qeq_bool (Year r) [y]) (year_is y))
        by (intros; apply isin_single_year).
      reflexivity.
  - intros r y Hr Hy.
    assert (Hin : In y (dropna (map Year df_f)))
      by (apply dropna_In; rewrite <- Hy; now apply in_map).
    destruct (@unique_covers _ Qeq_bool Qeq Qeq_bool_iff Qeq_refl _ _ Hin)
      as [w [Hw He]].
    exists w. eexists. split; [|exact He].
    apply in_map_iff. exists w. split; [reflexivity|].
    now apply sorted_In.
Qed.


(** ** KPIs and guarded sections *)

Lemma total_enr_all_missing df_f :
  (forall r, In r df_f -> Enrollments r = None) ->
  total_enr df_f = Raise (TypeError "boolean value of NA is ambiguous").
Proof.
  intros Hall. unfold total_enr, sum_min_count_1.
  assert (Hd : dropna (map Enrollments df_f) = []).
  { induction df_f as [|r df_f IH]; simpl; [reflexivity|].
    rewrite (Hall r (or_introl eq_refl)). apply IH.
    intros; apply Hall; now right. }
  rewrite Hd. reflexivity.
Qed.

(** With no enrollment count left after filtering, the KPI block shows
    its error and none of the three metrics. *)
Lemma kpi_block_all_missing raises df_f :
  (forall r, In r df_f -> Enrollments r = None) ->
  kpi_block raises df_f
  = ([EvError (MsgKPI (TypeError "boolean value of NA is ambiguous"))],
     Return tt).
Proof.
  intros Hall. unfold kpi_block. rewrite (total_enr_all_missing _ Hall).
  reflexivity.
Qed.

(** With a count present and a presenter that does not raise, the three
    metrics are the two means and the truncated sum. *)
Lemma kpi_block_shows x xs df_f :
  dropna (map Enrollments df_f) = x :: xs ->
  kpi_block never_raises df_f
  = ([EvMetric KRetention
        (mean_display ShowPercent (series_mean (map RetentionRate df_f)));
      EvMetric KSatisfaction
        (mean_display ShowOutOfFive (series_mean (map SatisfactionScore df_f)));
      EvMetric KEnrollments
        (ShowInt (py_int (if Qeq_bool (total (x :: xs)) 0 then 0
                          else total (x :: xs))))],
     Return tt).
Proof.
  intros Hd. unfold kpi_block, total_enr, sum_min_count_1. rewrite Hd.
  unfold or_zero. destruct (Qeq_bool (total (x :: xs)) 0); reflexivity.
Qed.

(** C5.  A file whose department columns are empty: every record that
    reaches the KPI block lacks its enrollment count, the block shows the
    KPI error, and the page shows no enrollment total (and no other
    metric), where the spec asks for a total of zero. *)
Theorem kpi_total_of_missing_counts :
  exists evs df_f,
    filtered parse_unsigned world_without_counts = (evs, Return df_f) /\
    df_f <> [] /\
    (forall r, In r df_f -> Enrollments r = None) /\
    total_enr df_f = Raise (TypeError "boolean value of NA is ambiguous") /\
    kpi_block never_raises df_f
    = ([EvError (MsgKPI (TypeError "boolean value of NA is ambiguous"))],
       Return tt) /\
    In (EvError (MsgKPI (TypeError "boolean value of NA is ambiguous")))
       (fst (script parse_unsigned world_without_counts)) /\
    forall k d,
      ~ In (EvMetric k d) (fst (script parse_unsigned world_without_counts)).
Proof.
  exists (fst (filtered parse_unsigned world_without_counts)).
  exists (map (fun d => {| Year := Some (inject_Z 2020); Term := str "Fall";
                           Applications := Some (inject_Z 500);
                           Admits := num 300; Enrolled := num 100;
                           RetentionRate := Some (inject_Z 80);
                           SatisfactionScore := Some (inject_Z 4);
                           Department := str d; EnrollmentsDept := None;
                           Enrollments := None |})
              ["Engineering"; "Business"; "Arts"; "Science"]).
  split; [vm_compute; reflexivity|].
  split; [discriminate|].
  assert (Hall : forall r,
             In r (map (fun d => {| Year := Some (inject_Z 2020);
                                    Term := str "Fall";
                                    Applications := Some (inject_Z 500);
                                    Admits := num 300; Enrolled := num 100;
                                    RetentionRate := Some (inject_Z 80);
                                    SatisfactionScore := Some (inject_Z 4);
                                    Department := str d;
                                    EnrollmentsDept := None;
                                    Enrollments := None |})
                       ["Engineering"; "Business"; "Arts"; "Science"]) ->
             Enrollments r = None).
  { intros r Hr. apply in_map_iff in Hr. destruct Hr as [d [<- _]].
    reflexivity. }
  split; [exact Hall|].
  split; [now apply total_enr_all_missing|].
  split; [now apply kpi_block_all_missing|].
  split.
  - vm_compute. tauto.
  - intros k d Hin. vm_compute in Hin.
    repeat (destruct Hin as [Hin|Hin]; [discriminate|]). exact Hin.
Qed.

Lemma kpi_block_returns raises df_f :
  snd (kpi_block raises df_f) = Return tt.
Proof.
  unfold kpi_block, present.
  destruct (total_enr df_f); simpl; [|reflexivity].
  destruct (raises (WMetric KRetention)); simpl; [reflexivity|].
  destruct (raises (WMetric KSatisfaction)); simpl; [reflexivity|].
  destruct (raises (WMetric KEnrollments)); reflexivity.
Qed.

Lemma chart_block_returns raises c df_f :
  snd (chart_block raises c df_f) = Return tt.
Proof.
  unfold chart_block, present. destruct (raises (WChart c)); reflexivity.
Qed.

Lemma section_block_returns raises s df_f :
  snd (section_block raises s df_f) = Return tt.
Proof.
  destruct s; [apply kpi_block_returns|apply chart_block_returns].
Qed.

Lemma pbind_returned {A B} (m : prog A) (k : A -> prog B) a :
  snd m = Return a ->
  pbind m k = (fst m ++ fst (k a), snd (k a)).
Proof.
  destruct m as [evs r]. simpl. intros ->. now destruct (k a).
Qed.

Lemma dashboard_layout raises df_f :
  dashboard raises df_f
  = (EvSubheader "Indicadores clave"
       :: fst (section_block raises SecKPI df_f)
     ++ EvSubheader "Tendencia: Retención por año"
       :: fst (section_block raises (SecChart ChartRetention) df_f)
     ++ EvSubheader "Satisfacción promedio por año"
       :: fst (section_block raises (SecChart ChartSatisfaction) df_f)
     ++ EvSubheader "Distribución de matrículas por periodo"
       :: fst (section_block raises (SecChart ChartTerm) df_f)
     ++ [EvSubheader "Datos filtrados"; EvFilteredTable df_f],
     Return tt).
Proof.
  unfold dashboard. simpl section_block.
  pose proof (kpi_block_returns raises df_f) as Hk.
  pose proof (chart_block_returns raises ChartRetention df_f) as H1.
  pose proof (chart_block_returns raises ChartSatisfaction df_f) as H2.
  pose proof (chart_block_returns raises ChartTerm df_f) as H3.
  destruct (kpi_block raises df_f) as [ek rk].
  destruct (chart_block raises ChartRetention df_f) as [e1 r1].
  destruct (chart_block raises ChartSatisfaction df_f) as [e2 r2].
  destruct (chart_block raises ChartTerm df_f) as [e3 r3].
  simpl in *. subst. simpl.
  repeat (rewrite <- ?app_assoc; simpl). reflexivity.
Qed.

Lemma section_complete raises df_f s :
  section_faults raises df_f s = false ->
  fst (section_block raises s df_f) = section_output df_f s.
Proof.
  destruct s as [|c]; simpl.
  - unfold kpi_faults, kpi_block, present.
    destruct (total_enr df_f); simpl;
      destruct (raises (WMetric KRetention)),
               (raises (WMetric KSatisfaction)),
               (raises (WMetric KEnrollments)); simpl;
      try discriminate; reflexivity.
  - unfold chart_block, present. now intros ->.
Qed.

Lemma section_reports raises df_f s :
  section_faults raises df_f s = true ->
  exists shown e,
    fst (section_block raises s df_f) = shown ++ [section_error s e] /\
    incl shown (section_output df_f s).
Proof.
  destruct s as [|c]; simpl.
  - unfold kpi_faults, kpi_block, present.
    destruct (total_enr df_f) as [enr|e]; simpl.
    + destruct (raises (WMetric KRetention)); simpl;
        [intros _; exists [], (LibraryError "presenter");
         split; [reflexivity|intros ? []]|].
      destruct (raises (WMetric KSatisfaction)); simpl;
        [intros _; eexists [_], (LibraryError "presenter");
         split; [reflexivity|intros ? [<-|[]]; simpl; auto]|].
      destruct (raises (WMetric KEnrollments)); simpl; [|discriminate].
      intros _; eexists [_; _], (LibraryError "presenter").
      split; [reflexivity|].
      intros ? [<-|[<-|[]]]; simpl; auto.
    + intros _. exists [], e. split; [reflexivity|intros ? []].
  - unfold chart_block, present. intros ->.
    exists [], (LibraryError "presenter"). split; [reflexivity|intros ? []].
Qed.

Lemma section_local raises raises' df_f s :
  (forall w, section_of w = s -> raises' w = raises w) ->
  section_block raises' s df_f = section_block raises s df_f.
Proof.
  intros Hsame. destruct s as [|c]; simpl.
  - unfold kpi_block, present.
    now rewrite !(Hsame (WMetric _) eq_refl).
  - unfold chart_block, present.
    now rewrite (Hsame (WChart c) eq_refl).
Qed.

(** C6, as stated, fails for the KPIs.  When showing the retention metric
    raises, the satisfaction metric and the enrollment total, whose own
    steps do not raise, are not shown; when the enrollment total cannot
    be computed, the retention metric, whose own steps do not raise, is
    not shown. *)
Lemma kpis_not_guarded_one_by_one :
  ~ kpis_guarded_one_by_one retention_metric_raises [rec_2020] /\
  ~ kpis_guarded_one_by_one never_raises [rec_no_enrollments].
Proof.
  split; intros H.
  - destruct (H KSatisfaction eq_refl) as [d Hin].
    vm_compute in Hin. destruct Hin as [Hin|[]]. discriminate.
  - destruct (H KRetention eq_refl) as [d Hin].
    vm_compute in Hin. destruct Hin as [Hin|[]]. discriminate.
Qed.

(** C6, amended.  The guards are one per section: the KPI block as a
    whole and each of the three charts.  For every filtered table and
    every behaviour of the presenter, the dashboard runs to its end: each
    section's heading, then what the section shows, then the filtered
    table.  A section none of whose steps raises shows all of its
    output; a section with a step that raises shows what it had shown
    before that step and then one error naming that section; and what a
    section shows does not depend on the presenter's behaviour in any
    other section. *)
Theorem sections_guarded_independently (raises : widget -> bool)
    (df_f : list LongRecord) :
  dashboard raises df_f
  = (EvSubheader "Indicadores clave"
       :: fst (section_block raises SecKPI df_f)
     ++ EvSubheader "Tendencia: Retención por año"
       :: fst (section_block raises (SecChart ChartRetention) df_f)
     ++ EvSubheader "Satisfacción promedio por año"
       :: fst (section_block raises (SecChart ChartSatisfaction) df_f)
     ++ EvSubheader "Distribución de matrículas por periodo"
       :: fst (section_block raises (SecChart ChartTerm) df_f)
     ++ [EvSubheader "Datos filtrados"; EvFilteredTable df_f],
     Return tt) /\
  (forall s,
      snd (section_block raises s df_f) = Return tt /\
      (section_faults raises df_f s = false ->
       fst (section_block raises s df_f) = section_output df_f s) /\
      (section_faults raises df_f s = true ->
       exists shown e,
         fst (section_block raises s df_f) = shown ++ [section_error s e] /\
         incl shown (section_output df_f s)) /\
      (forall raises',
          (forall w, section_of w = s -> raises' w = raises w) ->
          section_block raises' s df_f = section_block raises s df_f)).
Proof.
  split; [apply dashboard_layout|].
  intros s. split; [apply section_block_returns|].
  split; [apply section_complete|].
  split; [apply section_reports|].
  intros raises'. apply section_local.
Qed.

Section DashboardReached.
Variable parse_number : string -> option Q.

(** A filtered table with rows always reaches the dashboard. *)
Lemma script_runs_dashboard w evs r rest :
  filtered parse_number w = (evs, Return (r :: rest)) ->
  script parse_number w
  = (evs ++ fst (dashboard (presenter_raises w) (r :: rest)), Return tt).
Proof.
  intros H. unfold script. rewrite H. simpl.
  rewrite dashboard_layout. reflexivity.
Qed.

End DashboardReached.

(** * Further properties *)

(** ** Missing columns *)

Lemma index_of_Some_In name cols i :
  index_of name cols = Some i -> In name cols.
Proof.
  revert i. induction cols as [|c cols IH]; simpl; intros i; [discriminate|].
  destruct (String.eqb_spec name c) as [->|Hne]; [auto|].
  destruct (index_of name cols); simpl; [|discriminate].
  intros _. right. eapply IH. reflexivity.
Qed.

Lemma index_of_None_notin name cols :
  index_of name cols = None -> ~ In name cols.
Proof.
  intros H Hin. destruct (index_of_In _ _ Hin) as [i Hi]. congruence.
Qed.

(** [melt] either finds the eleven columns, or raises KeyError on one of
    them that the table lacks. *)
Lemma select_columns_cases df :
  (well_formed df /\
   select_columns df = Ok (map (wide_view df) (rows df))) \/
  (exists c,
      In c required_columns /\ ~ In c (columns df) /\
      select_columns df = Raise (KeyError c)).
Proof.
  destruct (select_columns df) as [ws|e] eqn:Hsel.
  - left.
    assert (Hwf : well_formed df).
    { revert Hsel. unfold select_columns, locate.
      intros Hsel c Hc. unfold required_columns in Hc. simpl in Hc.
      repeat match type of Hsel with
      | context [index_of ?n (columns df)] =>
          let H := fresh "Hc" in
          destruct (index_of n (columns df)) eqn:H; simpl in Hsel;
          [apply index_of_Some_In in H|discriminate]
      end.
      intuition (subst; assumption). }
    split; [exact Hwf|]. rewrite <- Hsel. now apply select_columns_ok.
  - right. revert Hsel. unfold select_columns, locate.
    repeat match goal with
    | |- context [index_of ?n (columns df)] =>
        let H := fresh "Hc" in
        destruct (index_of n (columns df)) eqn:H; simpl;
        [ | intros Hsel; exists n;
            split; [unfold required_columns; simpl; auto 20|];
            split; [now apply index_of_None_notin|];
            inversion Hsel; reflexivity ]
    end.
    discriminate.
Qed.

(** The three ways [reshape] can go. *)
Lemma reshape_cases df :
  (meltable df /\
   reshape df = Ok (map clean_row (melt_rows (map (wide_view df) (rows df))))) \/
  (In value_name (columns df) /\ reshape df = Raise value_name_error) \/
  (~ In value_name (columns df) /\
   exists c,
     In c required_columns /\ ~ In c (columns df) /\
     reshape df = Raise (KeyError c)).
Proof.
  destruct (mem String.eqb value_name (columns df)) eqn:Hm.
  - right. left. split; [now apply mem_string_iff|].
    unfold reshape, melt. now rewrite Hm.
  - assert (Hfree : ~ In value_name (columns df)).
    { intros H. apply mem_string_iff in H. congruence. }
    destruct (select_columns_cases df) as [[Hwf Hs]|[c [Hc [Hn Hs]]]].
    + left. split; [now split|]. apply reshape_ok. now split.
    + right. right. split; [exact Hfree|].
      exists c. repeat split; auto.
      unfold reshape, melt. now rewrite Hm, Hs.
Qed.

(** X1.  Reshaping succeeds exactly on the tables that have the eleven
    columns [melt] names and no column already called EnrollmentsDept.
    A table with such a column is refused with ValueError, whatever else
    it has; any other table that fails is refused with KeyError for one
    of the eleven columns that it lacks. *)
Theorem reshape_succeeds_iff_columns (df : DataFrame) :
  ((exists long, reshape df = Ok long) <-> meltable df) /\
  (In value_name (columns df) -> reshape df = Raise value_name_error) /\
  (~ In value_name (columns df) ->
   ~ well_formed df ->
   exists c, In c required_columns /\ ~ In c (columns df) /\
             reshape df = Raise (KeyError c)).
Proof.
  destruct (reshape_cases df)
    as [[Hm Hr]|[[Hv Hr]|[Hfree [c [Hc [Hn Hr]]]]]].
  - split; [|split].
    + split; [auto|eauto].
    + intros Hv. destruct Hm as [_ Hfree]. contradiction.
    + intros _ Hnwf. destruct Hm as [Hwf _]. contradiction.
  - split; [|split].
    + split.
      * intros [long Hl]. congruence.
      * intros [_ Hfree]. contradiction.
    + auto.
    + intros Hfree. contradiction.
  - split; [|split].
    + split.
      * intros [long Hl]. congruence.
      * intros [Hwf _]. elim Hn. now apply Hwf.
    + intros Hv. contradiction.
    + intros _ _. exists c. auto.
Qed.

(** ** The run as a whole *)

Lemma pbind_fst {A B} (m : prog A) (k : A -> prog B) :
  fst (pbind m k)
  = fst m ++ match snd m with
             | Return a => fst (k a)
             | _ => []
             end.
Proof.
  destruct m as [evs [a|e|]]; simpl; try now rewrite app_nil_r.
  now destruct (k a).
Qed.

Lemma pbind_snd {A B} (m : prog A) (k : A -> prog B) :
  snd (pbind m k)
  = match snd m with
    | Return a => snd (k a)
    | Raised e => Raised e
    | Halted => Halted
    end.
Proof.
  destruct m as [evs [a|e|]]; simpl; try reflexivity.
  now destruct (k a).
Qed.

Lemma validate_silent : validate = ([], Return tt).
Proof. vm_compute. reflexivity. Qed.

Lemma py_sorted_Raise l e :
  py_sorted l = Raise e -> exists m, e = TypeError m.
Proof.
  unfold py_sorted. destruct (same_kind l); [discriminate|].
  inversion 1. eauto.
Qed.

Lemma load_data_never_raises c fs : exists v, load_data c fs = Ok v.
Proof.
  unfold load_data. destruct (cache_lookup c); [eauto|].
  rewrite load_from_first_parsed. eauto.
Qed.

Section WholeRun.
Variable parse_number : string -> option Q.

(** Lines 12-102 once the loader has returned a table. *)
Lemma filtered_loaded w wide :
  load_data (cache w) (files w) = Ok (Some wide) ->
  filtered parse_number w
  = match reshape wide with
    | Raise e => ([EvTitle; EvIntro], Raised e)
    | Ok raw =>
        let df := map (coerce_row parse_number) raw in
        match depts_of df with
        | Raise e => (page_head df, Raised e)
        | Ok depts =>
            match terms_of df with
            | Raise e => (page_head df, Raised e)
            | Ok terms =>
                (page_head df ++ [EvSidebar (years_of df) depts terms],
                 Return (apply_filters
                           (multiselect (years_of df) (years_of df)
                                        (year_choice (choices w)))
                           (multiselect depts depts (dept_choice (choices w)))
                           (multiselect terms terms (term_choice (choices w)))
                           df))
            end
        end
    end.
Proof.
  intros Hload. unfold filtered, load_and_reshape.
  rewrite Hload, validate_silent. simpl.
  destruct (reshape wide) as [raw|e]; simpl; [|reflexivity].
  rewrite coerce_rowwise. simpl.
  destruct (depts_of _) as [depts|e]; simpl; [|reflexivity].
  destruct (terms_of _) as [terms|e]; simpl; reflexivity.
Qed.

(** X2.  When the table the loader returned is one that [melt] refuses,
    the run shows the title and the introduction and then ends with the
    exception in flight: ValueError when the table has a column called
    EnrollmentsDept, otherwise the KeyError of one of the eleven columns
    that it lacks.  No warning about columns, no preview, nothing else. *)
Theorem script_refused_by_melt (w : World) (wide : DataFrame) :
  load_data (cache w) (files w) = Ok (Some wide) ->
  ~ meltable wide ->
  exists e,
    script parse_number w = ([EvTitle; EvIntro], Raised e) /\
    ((In value_name (columns wide) /\ e = value_name_error) \/
     (~ In value_name (columns wide) /\
      exists c, e = KeyError c /\
                In c required_columns /\ ~ In c (columns wide))).
Proof.
  intros Hload Hnm.
  destruct (reshape_cases wide)
    as [[Hm _]|[[Hv Hr]|[Hfree [c [Hc [Hn Hr]]]]]]; [contradiction| |].
  - exists value_name_error. split; [|now left].
    unfold script. rewrite (filtered_loaded _ Hload), Hr. reflexivity.
  - exists (KeyError c). split; [|right; split; [exact Hfree|eauto]].
    unfold script. rewrite (filtered_loaded _ Hload), Hr. reflexivity.
Qed.

(** X4.  Once the dashboard part is reached the run ends normally, and a
    run that ends with an exception in flight got it from [melt] (the
    ValueError for a column called EnrollmentsDept, or the KeyError of a
    required column) or from sorting the filter options (TypeError),
    before any filter widget, KPI, chart or filtered table was shown. *)
Theorem script_exceptions (w : World) (evs : list event) (e : exception) :
  script parse_number w = (evs, Raised e) ->
  (e = value_name_error \/
   (exists c, e = KeyError c /\ In c required_columns) \/
   (exists m, e = TypeError m)) /\
  Forall (fun ev => is_sidebar ev = false /\ before_dashboard ev) evs.
Proof.
  unfold script. intros Hrun.
  destruct (load_data_never_raises (cache w) (files w)) as [[wide|] Hload].
  - rewrite (filtered_loaded _ Hload) in Hrun.
    destruct (reshape_cases wide)
      as [[_ Hr]|[[_ Hr]|[_ [c [Hc [_ Hr]]]]]];
      rewrite Hr in Hrun; simpl in Hrun.
    + match type of Hrun with
      | context [depts_of ?d] => destruct (depts_of d) as [depts|e1] eqn:Hd
      end; simpl in Hrun.
      * match type of Hrun with
        | context [terms_of ?d] => destruct (terms_of d) as [terms|e2] eqn:Ht
        end; simpl in Hrun.
        -- match type of Hrun with
           | context [apply_filters ?a ?b ?c ?d] =>
               destruct (apply_filters a b c d) as [|r rest]
           end; simpl in Hrun; [discriminate|].
           rewrite dashboard_layout in Hrun. discriminate.
        -- inversion Hrun; subst. split.
           ++ right. right. eapply py_sorted_Raise, Ht.
           ++ repeat constructor.
      * inversion Hrun; subst. split.
        -- right. right. eapply py_sorted_Raise, Hd.
        -- repeat constructor.
    + inversion Hrun; subst. split; [now left|repeat constructor].
    + inversion Hrun; subst. split; [right; left; eauto|repeat constructor].
  - unfold filtered, load_and_reshape in Hrun.
    rewrite Hload in Hrun. discriminate.
Qed.

End WholeRun.

Lemma script_refused_by_melt_witness :
  exists e,
    script parse_unsigned world_without_term
    = ([EvTitle; EvIntro], Raised e) /\
    ((In value_name (columns table_without_term) /\ e = value_name_error) \/
     (~ In value_name (columns table_without_term) /\
      exists c, e = KeyError c /\
                In c required_columns /\
                ~ In c (columns table_without_term))).
Proof.
  apply (@script_refused_by_melt parse_unsigned world_without_term
           table_without_term).
  - vm_compute. reflexivity.
  - intros [Hwf _].
    assert (H : In "Term" (columns table_without_term))
      by (apply Hwf; unfold required_columns; simpl; auto).
    simpl in H. repeat (destruct H as [H|H]; [discriminate|]). exact H.
Defined.

Lemma script_exceptions_witness :
  (TypeError "'<' not supported between instances of 'str' and 'float'"
   = value_name_error \/
   (exists c,
       TypeError "'<' not supported between instances of 'str' and 'float'"
       = KeyError c /\ In c required_columns) \/
   (exists m,
       TypeError "'<' not supported between instances of 'str' and 'float'"
       = TypeError m)) /\
  Forall (fun ev => is_sidebar ev = false /\ before_dashboard ev)
         (fst (script parse_unsigned world_mixed_term)).
Proof.
  apply (@script_exceptions parse_unsigned world_mixed_term).
  vm_compute. reflexivity.
Defined.

(** ** Preview and filter options *)

Lemma melt_rows_length ws :
  List.length (melt_rows ws) = (4 * List.length ws)%nat.
Proof. rewrite melt_rows_blocks, !length_app, !length_map. lia. Qed.

Section PreviewAndOptions.
Variable parse_number : string -> option Q.

(** X5.  For a table that [melt] accepts, the run shows, right after
    the title and the introduction, the preview heading, the first rows
    of the long table (five at most), and the counts: four times the
    file's row count, and ten columns. *)
Theorem preview_reports_shape (w : World) (wide : DataFrame) :
  load_data (cache w) (files w) = Ok (Some wide) ->
  meltable wide ->
  exists df rest outcome,
    (raw <- reshape wide ;; coerce parse_number raw) = Ok df /\
    List.length (firstn 5 df) = Nat.min 5 (4 * List.length (rows wide)) /\
    script parse_number w
    = (EvTitle :: EvIntro
         :: EvSubheader "Vista rápida del conjunto de datos"
         :: EvPreview (firstn 5 df)
         :: EvShape (4 * List.length (rows wide)) 10
         :: rest,
       outcome).
Proof.
  intros Hload Hwf.
  set (df := map (coerce_row parse_number)
               (map clean_row (melt_rows (map (wide_view wide) (rows wide))))).
  assert (Hlen : List.length df = (4 * List.length (rows wide))%nat)
    by (unfold df; now rewrite !length_map, melt_rows_length, length_map).
  assert (Hdf : (raw <- reshape wide ;; coerce parse_number raw) = Ok df)
    by (rewrite (reshape_ok Hwf); simpl; apply coerce_rowwise).
  assert (Hhead : forall tail,
             page_head df ++ tail
             = EvTitle :: EvIntro
                 :: EvSubheader "Vista rápida del conjunto de datos"
                 :: EvPreview (firstn 5 df)
                 :: EvShape (4 * List.length (rows wide)) 10 :: tail)
    by (intros; unfold page_head; now rewrite Hlen).
  exists df.
  exists (match snd (filtered parse_number w) with
          | Return df_f =>
              EvSidebar (years_of df)
                (match depts_of df with Ok d => d | Raise _ => [] end)
                (match terms_of df with Ok t => t | Raise _ => [] end)
              :: fst match df_f with
                     | [] => _ <~ emit (EvWarning MsgNoRows) ;; st_stop
                     | _ :: _ => dashboard (presenter_raises w) df_f
                     end
          | _ => []
          end).
  exists (snd (script parse_number w)).
  split; [exact Hdf|]. split; [now rewrite length_firstn, Hlen|].
  rewrite (surjective_pairing (script parse_number w)) at 1. f_equal.
  unfold script. rewrite pbind_fst.
  rewrite (@filtered_loaded parse_number w wide Hload), (reshape_ok Hwf).
  fold df. cbv zeta.
  destruct (depts_of df) as [depts|e]; cbn [fst snd].
  - destruct (terms_of df) as [terms|e]; cbn [fst snd].
    + rewrite <- app_assoc. apply Hhead.
    + apply Hhead.
  - apply Hhead.
Qed.

Lemma dropna_app {A} (l1 l2 : list (option A)) :
  dropna (l1 ++ l2) = dropna l1 ++ dropna l2.
Proof.
  induction l1 as [|[x|] l1 IH]; simpl; [reflexivity| |exact IH].
  now rewrite IH.
Qed.

Lemma dropna_const {A B} (c : A) (l : list B) :
  dropna (map (fun _ => Some c) l) = repeat c (List.length l).
Proof. induction l; simpl; [reflexivity|now f_equal]. Qed.

Lemma unique_acc_skip (c : value) seen n rest :
  mem value_eqb c seen = true ->
  unique_acc value_eqb seen (repeat c n ++ rest)
  = unique_acc value_eqb seen rest.
Proof.
  intros Hm. induction n as [|n IH]; simpl; [reflexivity|].
  now rewrite Hm.
Qed.

Lemma department_column df :
  map Department
      (map (coerce_row parse_number)
           (map clean_row (melt_rows (map (wide_view df) (rows df)))))
  = map (fun _ => Some (VStr "Engineering")) (rows df)
    ++ map (fun _ => Some (VStr "Business")) (rows df)
    ++ map (fun _ => Some (VStr "Arts")) (rows df)
    ++ map (fun _ => Some (VStr "Science")) (rows df).
Proof.
  rewrite melt_rows_blocks, !map_app, !map_map. reflexivity.
Qed.

(** X6.  On a reshaped and coerced table, sorting the department options
    never raises, and the options are the four cleaned department names
    in alphabetical order; a file without rows gives no option. *)
Theorem department_options (df : DataFrame) (raw : list LongRaw)
    (long : list LongRecord) :
  reshape df = Ok raw ->
  coerce parse_number raw = Ok long ->
  depts_of long = Ok (match rows df with
                      | [] => []
                      | _ :: _ => four_departments
                      end).
Proof.
  intros Hre Hco.
  destruct (reshape_cases df) as [[_ Hr]|[[_ Hr]|[_ [c [_ [_ Hr]]]]]];
    [|congruence|congruence].
  rewrite Hr in Hre. inversion Hre; subst raw; clear Hre.
  rewrite coerce_rowwise in Hco. inversion Hco; subst long; clear Hco.
  unfold depts_of. rewrite department_column, !dropna_app, !dropna_const.
  destruct (rows df) as [|r rs]; [reflexivity|].
  simpl List.length. simpl repeat. unfold unique.
  cbn [app unique_acc]. change (mem value_eqb _ []) with false. cbv iota.
  rewrite unique_acc_skip by reflexivity.
  cbn [app unique_acc].
  change (mem value_eqb (VStr "Business") [VStr "Engineering"]) with false.
  cbv iota. rewrite unique_acc_skip by reflexivity.
  cbn [app unique_acc].
  change (mem value_eqb (VStr "Arts") [VStr "Business"; VStr "Engineering"])
    with false.
  cbv iota. rewrite unique_acc_skip by reflexivity.
  cbn [app unique_acc].
  change (mem value_eqb (VStr "Science")
            [VStr "Arts"; VStr "Business"; VStr "Engineering"])
    with false.
  cbv iota.
  rewrite <- (app_nil_r (repeat (VStr "Science") (List.length rs))).
  rewrite unique_acc_skip by reflexivity.
  reflexivity.
Qed.

End PreviewAndOptions.

Lemma preview_reports_shape_witness :
  exists df rest outcome,
    (raw <- reshape two_year_table ;; coerce parse_unsigned raw) = Ok df /\
    List.length (firstn 5 df)
    = Nat.min 5 (4 * List.length (rows two_year_table)) /\
    script parse_unsigned world_two_years
    = (EvTitle :: EvIntro
         :: EvSubheader "Vista rápida del conjunto de datos"
         :: EvPreview (firstn 5 df)
         :: EvShape (4 * List.length (rows two_year_table)) 10
         :: rest,
       outcome).
Proof.
  apply (@preview_reports_shape parse_unsigned world_two_years two_year_table).
  - vm_compute. reflexivity.
  - apply sample_columns_meltable.
Defined.

Lemma department_options_witness :
  exists raw long,
    reshape one_row_table = Ok raw /\
    coerce parse_unsigned raw = Ok long /\
    depts_of long = Ok four_departments.
Proof.
  eexists. eexists.
  split; [apply reshape_ok, sample_columns_meltable|].
  split; [apply coerce_rowwise|].
  apply (@department_options parse_unsigned one_row_table _ _
           (reshape_ok (sample_columns_meltable _))
           (coerce_rowwise parse_unsigned _)).
Defined.

(** ** A Term column of mixed kinds *)

Lemma same_kind_mixed l a b :
  In a l -> In b l -> is_num a = true -> is_num b = false ->
  same_kind l = false.
Proof.
  intros Ha Hb Hna Hnb. unfold same_kind. apply orb_false_iff. split.
  - destruct (forallb is_num l) eqn:H; [|reflexivity].
    rewrite forallb_forall in H. rewrite (H b Hb) in Hnb. discriminate.
  - destruct (forallb (fun v => negb (is_num v)) l) eqn:H; [|reflexivity].
    rewrite forallb_forall in H. specialize (H a Ha).
    rewrite Hna in H. discriminate.
Qed.

Lemma value_eq_kind a b : value_eq a b -> is_num a = is_num b.
Proof. destruct a, b; simpl; tauto. Qed.

Section MixedTerm.
Variable parse_number : string -> option Q.

Lemma term_of_wide_row df row :
  In row (rows df) ->
  exists r,
    In r (map (coerce_row parse_number)
              (map clean_row (melt_rows (map (wide_view df) (rows df))))) /\
    Term r = column "Term" df row.
Proof.
  intros Hin.
  exists (coerce_row parse_number
            (clean_row (melt_cell ("Engineering Enrolled", wEngineering)
                                  (wide_view df row)))).
  split; [|reflexivity].
  apply in_map, in_map. rewrite melt_rows_blocks. apply in_or_app. left.
  apply in_map, in_map, Hin.
Qed.

Lemma terms_of_mixed long r1 r2 q s :
  In r1 long -> Term r1 = Some (VNum q) ->
  In r2 long -> Term r2 = Some (VStr s) ->
  terms_of long
  = Raise (TypeError "'<' not supported between instances of 'str' and 'float'").
Proof.
  intros H1 T1 H2 T2. unfold terms_of, py_sorted.
  assert (I1 : In (VNum q) (dropna (map Term long)))
    by (apply dropna_In; rewrite <- T1; now apply in_map).
  assert (I2 : In (VStr s) (dropna (map Term long)))
    by (apply dropna_In; rewrite <- T2; now apply in_map).
  destruct (@unique_covers _ value_eqb value_eq value_eqb_iff value_eq_refl
              _ _ I1) as [a [Ha Ea]].
  destruct (@unique_covers _ value_eqb value_eq value_eqb_iff value_eq_refl
              _ _ I2) as [b [Hb Eb]].
  apply value_eq_kind in Ea, Eb. simpl in Ea, Eb.
  now rewrite (@same_kind_mixed _ a b Ha Hb (eq_sym Ea) (eq_sym Eb)).
Qed.

(** X7.  When the Term column of a table that [melt] accepts holds a
    number in one row and a string in another (as the parser leaves a
    column it read in several chunks), sorting the term options raises
    TypeError outside any [try]: the run ends with that exception in
    flight, after the preview and the counts and before any filter
    widget. *)
Theorem mixed_term_column_crashes (w : World) (wide : DataFrame)
    (row1 row2 : list cell) (q : Q) (s : string) :
  load_data (cache w) (files w) = Ok (Some wide) ->
  meltable wide ->
  In row1 (rows wide) -> column "Term" wide row1 = Some (VNum q) ->
  In row2 (rows wide) -> column "Term" wide row2 = Some (VStr s) ->
  exists df m,
    (raw <- reshape wide ;; coerce parse_number raw) = Ok df /\
    script parse_number w = (page_head df, Raised (TypeError m)).
Proof.
  intros Hload Hwf Hr1 Hc1 Hr2 Hc2.
  set (df := map (coerce_row parse_number)
               (map clean_row (melt_rows (map (wide_view wide) (rows wide))))).
  destruct (term_of_wide_row wide row1 Hr1) as [r1 [I1 T1]].
  destruct (term_of_wide_row wide row2 Hr2) as [r2 [I2 T2]].
  rewrite Hc1 in T1. rewrite Hc2 in T2. fold df in I1, I2.
  pose proof (terms_of_mixed df r1 r2 I1 T1 I2 T2) as Hterms.
  exists df.
  assert (Hdf : (raw <- reshape wide ;; coerce parse_number raw) = Ok df)
    by (rewrite (reshape_ok Hwf); simpl; apply coerce_rowwise).
  assert (Hrun : exists m,
             script parse_number w = (page_head df, Raised (TypeError m))).
  { unfold script.
    rewrite (@filtered_loaded parse_number w wide Hload), (reshape_ok Hwf).
    fold df. cbv zeta. rewrite Hterms.
    destruct (depts_of df) as [depts|e] eqn:Hd.
    - eexists. reflexivity.
    - destruct (py_sorted_Raise _ Hd) as [m ->]. exists m. reflexivity. }
  destruct Hrun as [m Hrun]. exists m. split; [exact Hdf|exact Hrun].
Qed.

End MixedTerm.

Lemma mixed_term_column_crashes_witness :
  exists df m,
    (raw <- reshape table_mixed_term ;; coerce parse_unsigned raw) = Ok df /\
    script parse_unsigned world_mixed_term = (page_head df, Raised (TypeError m)).
Proof.
  apply (@mixed_term_column_crashes parse_unsigned world_mixed_term
           table_mixed_term
           [num 2020; num 1; num 500; num 300; num 100;
            num 80; num 4; num 50; num 30; num 10; num 10]
           [num 2021; str "Fall"; num 600; num 350; num 120;
            num 90; num 3; num 60; num 30; num 20; num 10]
           (inject_Z 1) "Fall").
  - vm_compute. reflexivity.
  - apply sample_columns_meltable.
  - simpl. auto.
  - reflexivity.
  - simpl. auto.
  - reflexivity.
Defined.

(** ** Filters as one pass *)

Lemma filter_true {A} (l : list A) : filter (fun _ => true) l = l.
Proof. induction l; simpl; [reflexivity|now f_equal]. Qed.

Lemma filter_twice {A} (p q : A -> bool) l :
  filter p (filter q l) = filter (fun x => q x && p x) l.
Proof.
  induction l as [|x l IH]; simpl; [reflexivity|].
  destruct (q x); simpl; [|exact IH].
  destruct (p x); now rewrite IH.
Qed.

Lemma filter_all {A} (p : A -> bool) l :
  (forall x, In x l -> p x = true) -> filter p l = l.
Proof.
  induction l as [|x l IH]; simpl; intros H; [reflexivity|].
  rewrite (H x (or_introl eq_refl)). f_equal. apply IH. auto.
Qed.

Lemma filter_by_step {A} (eqb : A -> A -> bool) col sel df :
  filter_by eqb col sel df = filter (step_keeps eqb col sel) df.
Proof.
  unfold filter_by, step_keeps. destruct sel; [|reflexivity].
  symmetry. apply filter_true.
Qed.

Lemma apply_filters_one_pass year_sel dept_sel term_sel df :
  apply_filters year_sel dept_sel term_sel df
  = filter (row_passes year_sel dept_sel term_sel) df.
Proof.
  unfold apply_filters. rewrite !filter_by_step, !filter_twice.
  apply filter_ext. intros r. unfold row_passes.
  destruct (step_keeps Qeq_bool Year year_sel r),
           (step_keeps value_eqb Department dept_sel r),
           (step_keeps value_eqb Term term_sel r); reflexivity.
Qed.

(** X8.  The three filter steps amount to one pass that keeps, in their
    order and with their repetitions, the rows passing all three tests.
    So the order of the steps does not matter, and filtering the output
    again with the same selections changes nothing. *)
Theorem filters_one_pass (year_sel : list Q) (dept_sel term_sel : list value)
    (df : list LongRecord) :
  apply_filters year_sel dept_sel term_sel df
  = filter (row_passes year_sel dept_sel term_sel) df /\
  filter_by Qeq_bool Year year_sel
    (filter_by value_eqb Department dept_sel
       (filter_by value_eqb Term term_sel df))
  = apply_filters year_sel dept_sel term_sel df /\
  apply_filters year_sel dept_sel term_sel
    (apply_filters year_sel dept_sel term_sel df)
  = apply_filters year_sel dept_sel term_sel df.
Proof.
  split; [apply apply_filters_one_pass|]. split.
  - rewrite apply_filters_one_pass, !filter_by_step, !filter_twice.
    apply filter_ext. intros r. unfold row_passes.
    destruct (step_keeps Qeq_bool Year year_sel r),
             (step_keeps value_eqb Department dept_sel r),
             (step_keeps value_eqb Term term_sel r); reflexivity.
  - rewrite !apply_filters_one_pass, filter_twice.
    apply filter_ext. intros r. now destruct (row_passes _ _ _ r).
Qed.

Lemma step_keeps_options {A} (eqb : A -> A -> bool) (eq : A -> A -> Prop)
    (leb : A -> A -> bool) (col : LongRecord -> option A) df r :
  (forall a b, eqb a b = true <-> eq a b) ->
  (forall a, eq a a) ->
  In r df -> col r <> None ->
  step_keeps eqb col (options_of eqb leb col df) r = true.
Proof.
  intros Hiff Hrefl Hr Hc. unfold step_keeps.
  destruct (options_of eqb leb col df) eqn:Ho; [reflexivity|].
  rewrite <- Ho. apply (@isin_iff _ eqb eq Hiff).
  destruct (col r) as [v|] eqn:Hv; [|congruence].
  rewrite <- Hv. eapply options_member; eauto.
Qed.

(** X9.  With the three multiselects left at their defaults, a table in
    which no row lacks its Year, Department or Term comes out of the
    filters unchanged. *)
Theorem default_filters_keep_complete_table (df : list LongRecord)
    (depts terms : list value) :
  depts_of df = Ok depts ->
  terms_of df = Ok terms ->
  (forall r, In r df ->
             Year r <> None /\ Department r <> None /\ Term r <> None) ->
  apply_filters (multiselect (years_of df) (years_of df) None)
                (multiselect depts depts None)
                (multiselect terms terms None) df
  = df.
Proof.
  intros Hd Ht Hall. simpl.
  apply py_sorted_Ok in Hd, Ht. subst depts terms.
  rewrite apply_filters_one_pass. apply filter_all.
  intros r Hr. destruct (Hall r Hr) as [Hy [Hdp Htm]].
  unfold row_passes.
  change (years_of df) with (options_of Qeq_bool Qle_bool Year df).
  change (sorted value_leb (unique value_eqb (dropna (map Department df))))
    with (options_of value_eqb value_leb Department df).
  change (sorted value_leb (unique value_eqb (dropna (map Term df))))
    with (options_of value_eqb value_leb Term df).
  rewrite (@step_keeps_options _ Qeq_bool Qeq Qle_bool Year df r
             Qeq_bool_iff Qeq_refl Hr Hy).
  rewrite (@step_keeps_options _ value_eqb value_eq value_leb Department df r
             value_eqb_iff value_eq_refl Hr Hdp).
  rewrite (@step_keeps_options _ value_eqb value_eq value_leb Term df r
             value_eqb_iff value_eq_refl Hr Htm).
  reflexivity.
Qed.

Lemma default_filters_keep_complete_table_witness :
  apply_filters (multiselect (years_of [rec_2020]) (years_of [rec_2020]) None)
                (multiselect [VStr "Engineering"] [VStr "Engineering"] None)
                (multiselect [VStr "Fall"] [VStr "Fall"] None) [rec_2020]
  = [rec_2020].
Proof.
  apply (@default_filters_keep_complete_table [rec_2020]
           [VStr "Engineering"] [VStr "Fall"]).
  - reflexivity.
  - reflexivity.
  - intros r [<-|[]]. repeat split; discriminate.
Defined.

(** X10.  The year options offered in the sidebar are strictly
    ascending, hence without repetition; every year present in the table
    is among them, and each of them is the year of some row. *)
Theorem year_options_ascending (df : list LongRecord) :
  StronglySorted Qlt (years_of df) /\
  (forall r y, In r df -> Year r = Some y ->
               exists y', In y' (years_of df) /\ y == y') /\
  (forall y', In y' (years_of df) -> exists r, In r df /\ Year r = Some y').
Proof.
  unfold years_of. split; [|split].
  - apply sorted_ascending, unique_acc_distinct.
  - intros r y Hr Hy.
    assert (Hin : In y (dropna (map Year df)))
      by (apply dropna_In; rewrite <- Hy; now apply in_map).
    destruct (@unique_covers _ Qeq_bool Qeq Qeq_bool_iff Qeq_refl _ _ Hin)
      as [w [Hw He]].
    exists w. split; [now apply sorted_In|exact He].
  - intros y' Hin.
    apply (proj1 (@sorted_In _ Qle_bool y' _)) in Hin.
    apply unique_acc_sub in Hin.
    apply (proj1 (dropna_In _ _)) in Hin. apply in_map_iff in Hin.
    destruct Hin as [r [Hr Hin]]. eauto.
Qed.

(** ** The KPI block on data with counts *)

Lemma py_int_nonneg q :
  0 <= q -> inject_Z (py_int q) <= q /\ q < inject_Z (py_int q) + 1.
Proof.
  destruct q as [n d]. unfold Qle, Qlt, py_int. simpl. intros H.
  pose proof (Z.quot_rem' n (Z.pos d)) as Hq.
  pose proof (Z.rem_bound_pos n (Z.pos d) ltac:(lia) ltac:(lia)) as Hr.
  split; nia.
Qed.

Lemma py_int_nonpos q :
  q <= 0 -> inject_Z (py_int q) - 1 < q /\ q <= inject_Z (py_int q).
Proof.
  destruct q as [n d]. unfold Qle, Qlt, py_int. simpl. intros H.
  pose proof (Z.quot_rem' n (Z.pos d)) as Hq.
  pose proof (Z.rem_bound_pos_neg n (Z.pos d) ltac:(lia) ltac:(lia)) as Hr.
  split; nia.
Qed.

Lemma py_int_integral q n : q == inject_Z n -> py_int q = n.
Proof.
  destruct q as [m d]. unfold Qeq, py_int. simpl. intros H.
  replace m with (n * Z.pos d)%Z by lia. apply Z.quot_mul. lia.
Qed.

Lemma total_integral xs : Forall integral xs -> integral (total xs).
Proof.
  induction 1 as [|x xs [n Hn] _ [m Hm]]; simpl.
  - exists 0%Z. reflexivity.
  - exists (n + m)%Z. rewrite Hn, Hm, inject_Z_plus. reflexivity.
Qed.

Lemma dropna_nil_iff {A} (col : list (option A)) :
  dropna col = [] <-> forall c, In c col -> c = None.
Proof.
  induction col as [|[x|] col IH]; simpl.
  - split; [intros _ ? []|reflexivity].
  - split; [discriminate|]. intros H.
    specialize (H (Some x) (or_introl eq_refl)). discriminate.
  - rewrite IH. split.
    + intros H c [<-|Hc]; auto.
    + intros H c Hc. apply H. now right.
Qed.

Lemma column_missing_iff (col : LongRecord -> option Q) df_f :
  dropna (map col df_f) = [] <-> forall r, In r df_f -> col r = None.
Proof.
  rewrite dropna_nil_iff. split.
  - intros H r Hr. apply H. now apply in_map.
  - intros H c Hc. apply in_map_iff in Hc. destruct Hc as [r [<- Hr]]. auto.
Qed.

Lemma series_mean_None (col : LongRecord -> option Q) df_f :
  series_mean (map col df_f) = None <-> forall r, In r df_f -> col r = None.
Proof.
  rewrite <- column_missing_iff. unfold series_mean.
  destruct (dropna (map col df_f)); split; congruence.
Qed.

Lemma total_enr_present x xs df_f :
  dropna (map Enrollments df_f) = x :: xs ->
  total_enr df_f = Ok (py_int (total (x :: xs))).
Proof.
  intros Hd. unfold total_enr, sum_min_count_1, or_zero. rewrite Hd.
  destruct (Qeq_bool (total (x :: xs)) 0) eqn:Hz; simpl; [|reflexivity].
  apply Qeq_bool_iff in Hz. f_equal. symmetry.
  now apply py_int_integral.
Qed.

(** The enrollment total either cannot be computed, all counts being
    missing, or is the truncated sum of the counts present. *)
Lemma total_enr_cases df_f :
  ((forall r, In r df_f -> Enrollments r = None) /\
   exists e, total_enr df_f = Raise e) \/
  ((exists r, In r df_f /\ Enrollments r <> None) /\
   total_enr df_f = Ok (py_int (total (dropna (map Enrollments df_f))))).
Proof.
  destruct (dropna (map Enrollments df_f)) as [|x xs] eqn:Hd.
  - left. pose proof (proj1 (column_missing_iff Enrollments df_f) Hd) as Hall.
    split; [exact Hall|]. rewrite (total_enr_all_missing _ Hall). eauto.
  - right. split; [|now apply total_enr_present].
    assert (Hin : In x (dropna (map Enrollments df_f))) by (rewrite Hd; now left).
    apply dropna_In, in_map_iff in Hin. destruct Hin as [r [Hr Hin]].
    exists r. split; [exact Hin|congruence].
Qed.

(** X11.  When some enrollment count is present, the counts present are
    integers whose absolute values add up to less than 2^53, and the
    presenter does not raise, the KPI block shows exactly three metrics,
    for retention, satisfaction and enrollment in this order: the
    retention (satisfaction) metric reads "N/A" when no retention rate
    (satisfaction score) is present, and the enrollment metric is the
    sum of the counts present. *)
Theorem kpi_metrics_shown (raises : widget -> bool) (df_f : list LongRecord) :
  (exists r, In r df_f /\ Enrollments r <> None) ->
  exact_counts (dropna (map Enrollments df_f)) ->
  (forall k, raises (WMetric k) = false) ->
  exists ret sat enr,
    fst (kpi_block raises df_f)
    = [EvMetric KRetention ret; EvMetric KSatisfaction sat;
       EvMetric KEnrollments (ShowInt enr)] /\
    ((forall r, In r df_f -> RetentionRate r = None) -> ret = ShowNA) /\
    ((forall r, In r df_f -> SatisfactionScore r = None) -> sat = ShowNA) /\
    inject_Z enr == total (dropna (map Enrollments df_f)).
Proof.
  intros [r [Hr Hne]] [Hint _] Hquiet.
  exists (mean_display ShowPercent (series_mean (map RetentionRate df_f))).
  exists (mean_display ShowOutOfFive
            (series_mean (map SatisfactionScore df_f))).
  exists (py_int (total (dropna (map Enrollments df_f)))).
  split; [|split; [|split]].
  - destruct (total_enr_cases df_f) as [[Hall _]|[_ Ht]];
      [elim Hne; auto|].
    unfold kpi_block, present. rewrite Ht, !Hquiet. reflexivity.
  - intros Hall. apply series_mean_None in Hall. now rewrite Hall.
  - intros Hall. apply series_mean_None in Hall. now rewrite Hall.
  - destruct (total_integral Hint) as [n Hn].
    rewrite (py_int_integral Hn). now symmetry.
Qed.

Lemma kpi_metrics_shown_witness :
  exists ret sat enr,
    fst (kpi_block never_raises [rec_2020])
    = [EvMetric KRetention ret; EvMetric KSatisfaction sat;
       EvMetric KEnrollments (ShowInt enr)] /\
    ((forall r, In r [rec_2020] -> RetentionRate r = None) -> ret = ShowNA) /\
    ((forall r, In r [rec_2020] -> SatisfactionScore r = None) ->
     sat = ShowNA) /\
    inject_Z enr == total (dropna (map Enrollments [rec_2020])).
Proof.
  apply (@kpi_metrics_shown never_raises [rec_2020]).
  - exists rec_2020. split; [now left|discriminate].
  - split.
    + repeat constructor. exists 50%Z. reflexivity.
    + reflexivity.
  - reflexivity.
Defined.

(** X12.  On counts that are integers whose absolute values add up to
    less than 2^53, the KPI block shows its error exactly when no
    enrollment count is present in the filtered table or the presenter
    raises on one of the three metrics. *)
Theorem kpi_error_iff (raises : widget -> bool) (df_f : list LongRecord) :
  exact_counts (dropna (map Enrollments df_f)) ->
  ((exists e, In (EvError (MsgKPI e)) (fst (kpi_block raises df_f))) <->
   (forall r, In r df_f -> Enrollments r = None) \/
   (exists k, raises (WMetric k) = true)).
Proof.
  intros _. unfold kpi_block, present.
  destruct (total_enr_cases df_f) as [[Hall [e He]]|[[r [Hr Hne]] Ht]].
  - rewrite He. simpl. split; [auto|]. intros _. exists e. now left.
  - rewrite Ht. simpl.
    destruct (raises (WMetric KRetention)) eqn:H1; simpl.
    { split; [intros _; right; eauto|intros _; eexists; left; reflexivity]. }
    destruct (raises (WMetric KSatisfaction)) eqn:H2; simpl.
    { split; [intros _; right; eauto|].
      intros _; eexists; right; left; reflexivity. }
    destruct (raises (WMetric KEnrollments)) eqn:H3; simpl.
    { split; [intros _; right; eauto|].
      intros _; eexists; right; right; left; reflexivity. }
    split.
    + intros [e [H|[H|[H|[]]]]]; discriminate.
    + intros [Hall|[k Hk]].
      * elim Hne. auto.
      * destruct k; congruence.
Qed.

Lemma kpi_error_iff_witness :
  (exists e, In (EvError (MsgKPI e))
                (fst (kpi_block retention_metric_raises [rec_2020]))) <->
  (forall r, In r [rec_2020] -> Enrollments r = None) \/
  (exists k, retention_metric_raises (WMetric k) = true).
Proof.
  apply (@kpi_error_iff retention_metric_raises [rec_2020]).
  split.
  - repeat constructor. exists 50%Z. reflexivity.
  - reflexivity.
Defined.

(** ** Totals per term *)

Lemma value_eqb_sym a b : value_eqb a b = value_eqb b a.
Proof.
  destruct (value_eqb a b) eqn:H1, (value_eqb b a) eqn:H2; try reflexivity.
  - apply value_eqb_iff in H1.
    assert (value_eqb b a = true); [|congruence].
    apply value_eqb_iff. destruct a, b; simpl in *; try tauto.
    + now symmetry.
    + now symmetry.
  - apply value_eqb_iff in H2.
    assert (value_eqb a b = true); [|congruence].
    apply value_eqb_iff. destruct a, b; simpl in *; try tauto.
    + now symmetry.
    + now symmetry.
Qed.

Lemma value_eqb_common v a b :
  value_eqb v a = true -> value_eqb v b = true -> value_eqb a b = true.
Proof.
  rewrite !value_eqb_iff. destruct v, a, b; simpl; try tauto.
  - intros H1 H2. now rewrite <- H1, <- H2.
  - intros <- <-. reflexivity.
Qed.

Lemma total_map_ext {A} (f g : A -> Q) K :
  (forall k, In k K -> f k == g k) ->
  total (map f K) == total (map g K).
Proof.
  induction K as [|k K IH]; simpl; intros H; [reflexivity|].
  rewrite (H k (or_introl eq_refl)), IH; [reflexivity|auto].
Qed.

Lemma total_map_plus {A} (f g : A -> Q) K :
  total (map (fun k => f k + g k) K) == total (map f K) + total (map g K).
Proof.
  induction K as [|k K IH]; simpl; [reflexivity|]. rewrite IH. ring.
Qed.

Lemma total_map_zero {A} (K : list A) : total (map (fun _ => 0) K) == 0.
Proof. induction K as [|k K IH]; simpl; [reflexivity|]. rewrite IH. ring. Qed.

Lemma total_map_insert {A} (leb : A -> A -> bool) (f : A -> Q) x l :
  total (map f (insert leb x l)) == f x + total (map f l).
Proof.
  induction l as [|y l IH]; simpl; [reflexivity|].
  destruct (leb x y); simpl; [reflexivity|]. rewrite IH. ring.
Qed.

Lemma total_map_sorted {A} (leb : A -> A -> bool) (f : A -> Q) l :
  total (map f (sorted leb l)) == total (map f l).
Proof.
  induction l as [|x l IH]; simpl; [reflexivity|].
  now rewrite total_map_insert, IH.
Qed.

Lemma unique_acc_distinct_values seen l :
  StronglySorted (fun a b => value_eqb a b = false)
                 (unique_acc value_eqb seen l) /\
  forall y s, In y (unique_acc value_eqb seen l) -> In s seen ->
              value_eqb y s = false.
Proof.
  revert seen. induction l as [|x l IH]; intros seen; simpl.
  - split; [constructor|intros ? ? []].
  - destruct (mem value_eqb x seen) eqn:Hm; [apply IH|].
    destruct (IH (x :: seen)) as [Hd Hs]. split.
    + constructor; [exact Hd|].
      rewrite Forall_forall. intros b Hb.
      rewrite value_eqb_sym. apply (Hs b x Hb). now left.
    + intros y s [<-|Hy] Hin.
      * destruct (value_eqb x s) eqn:Hxs; [|reflexivity].
        assert (mem value_eqb x seen = true); [|congruence].
        unfold mem. apply existsb_exists. eauto.
      * apply (Hs y s Hy). now right.
Qed.

Lemma indicator_total v c K k0 :
  StronglySorted (fun a b => value_eqb a b = false) K ->
  In k0 K -> value_eqb v k0 = true ->
  total (map (fun k => if value_eqb v k then c else 0) K) == c.
Proof.
  induction 1 as [|a K Hd IH Ha]; simpl; [tauto|].
  intros Hin Hv. destruct (value_eqb v a) eqn:Hva.
  - rewrite (total_map_ext _ (fun _ => 0)).
    + rewrite total_map_zero. ring.
    + intros b Hb. destruct (value_eqb v b) eqn:Hvb; [|reflexivity].
      rewrite Forall_forall in Ha. specialize (Ha b Hb).
      rewrite (value_eqb_common _ _ _ Hva Hvb) in Ha. discriminate.
  - destruct Hin as [->|Hin]; [congruence|].
    rewrite (IH Hin Hv). ring.
Qed.

Section GroupSums.
Variable key : LongRecord -> cell.
Variable val : LongRecord -> option Q.

(** The contribution of one row to a sum that skips missing cells. *)
Let contribution (r : LongRecord) : Q :=
  match val r with
  | Some x => x
  | None => 0
  end.

Let group_sum (df_f : list LongRecord) (k : value) : Q :=
  series_sum (map val (filter (fun r => isin value_eqb (key r) [k]) df_f)).

Lemma series_sum_cons r df_f :
  series_sum (map val (r :: df_f))
  == contribution r + series_sum (map val df_f).
Proof.
  unfold series_sum, contribution. simpl.
  destruct (val r); simpl; [reflexivity|ring].
Qed.

Lemma group_sum_cons r df_f k :
  group_sum (r :: df_f) k
  == (if isin value_eqb (key r) [k] then contribution r else 0)
     + group_sum df_f k.
Proof.
  unfold group_sum. simpl filter.
  destruct (isin value_eqb (key r) [k]).
  - apply series_sum_cons.
  - ring.
Qed.

Lemma group_sums_add_up K df_f :
  StronglySorted (fun a b => value_eqb a b = false) K ->
  (forall r v, In r df_f -> key r = Some v ->
               exists k0, In k0 K /\ value_eqb v k0 = true) ->
  total (map (group_sum df_f) K)
  == series_sum (map val (filter (fun r => has_value (key r)) df_f)).
Proof.
  intros Hd. induction df_f as [|r df_f IH]; intros Hcov.
  - unfold group_sum. simpl. apply total_map_zero.
  - rewrite (total_map_ext _ _ K (fun k _ => group_sum_cons r df_f k)).
    rewrite total_map_plus, IH
      by (intros r' v Hr'; apply Hcov; now right).
    simpl filter. destruct (key r) as [v|] eqn:Hk; simpl has_value.
    + destruct (Hcov r v (or_introl eq_refl) Hk) as [k0 [Hk0 Hv]].
      rewrite series_sum_cons.
      apply Qplus_inj_r.
      rewrite (total_map_ext _ (fun k => if value_eqb v k
                                         then contribution r else 0)).
      * eapply indicator_total; eauto.
      * intros k _. unfold isin, mem. simpl. now rewrite orb_false_r.
    + rewrite total_map_zero. ring.
Qed.

Lemma groupby_sum_add_up df_f :
  total (map snd (groupby_sum key val df_f))
  == series_sum (map val (filter (fun r => has_value (key r)) df_f)).
Proof.
  unfold groupby_sum, groupby. rewrite map_map. simpl.
  rewrite total_map_sorted.
  apply (group_sums_add_up (K := unique value_eqb (dropna (map key df_f)))).
  - apply unique_acc_distinct_values.
  - intros r v Hr Hk.
    assert (Hin : In v (dropna (map key df_f)))
      by (apply dropna_In; rewrite <- Hk; now apply in_map).
    destruct (@unique_covers _ value_eqb value_eq value_eqb_iff value_eq_refl
                _ _ Hin) as [w [Hw He]].
    exists w. split; [exact Hw|now apply value_eqb_iff].
Qed.

End GroupSums.

(** X13.  On counts that are integers whose absolute values add up to
    less than 2^53, the series behind the pie chart has an entry for
    every term present in the filtered table, every entry is the term of
    some row, and the entries add up to the sum of the counts present
    over the rows that have a term: a row without a term is in no
    slice, and no count is in two slices. *)
Theorem term_totals_add_up (df_f : list LongRecord) :
  exact_counts (dropna (map Enrollments df_f)) ->
  let series := groupby_sum Term Enrollments df_f in
  (forall r v, In r df_f -> Term r = Some v ->
               exists k x, In (k, x) series /\ value_eq v k) /\
  (forall k x, In (k, x) series -> exists r, In r df_f /\ Term r = Some k) /\
  total (map snd series)
  == total (dropna (map Enrollments
                      (filter (fun r => has_value (Term r)) df_f))).
Proof.
  intros _. simpl. split; [|split].
  - intros r v Hr Hv.
    assert (Hin : In v (dropna (map Term df_f)))
      by (apply dropna_In; rewrite <- Hv; now apply in_map).
    destruct (@unique_covers _ value_eqb value_eq value_eqb_iff value_eq_refl
                _ _ Hin) as [w [Hw He]].
    exists w. eexists. split; [|exact He].
    unfold groupby_sum, groupby. apply in_map_iff.
    exists w. split; [reflexivity|]. now apply sorted_In.
  - intros k x Hin. unfold groupby_sum, groupby in Hin.
    apply in_map_iff in Hin.
    destruct Hin as [k' [Hk Hin]]. inversion Hk; subst; clear Hk.
    apply (proj1 (@sorted_In _ value_leb k _)) in Hin.
    apply unique_acc_sub in Hin.
    apply (proj1 (dropna_In _ _)) in Hin. apply in_map_iff in Hin.
    destruct Hin as [r [Hr Hin]]. eauto.
  - apply groupby_sum_add_up.
Qed.

Lemma term_totals_add_up_witness :
  total (map snd (groupby_sum Term Enrollments [rec_2020; rec_no_year]))
  == total (dropna (map Enrollments
                      (filter (fun r => has_value (Term r))
                              [rec_2020; rec_no_year]))).
Proof.
  apply (@term_totals_add_up [rec_2020; rec_no_year]).
  split.
  - repeat constructor; [exists 50%Z|exists 40%Z]; reflexivity.
  - reflexivity.
Defined.

(** ** A run that reaches the dashboard *)

Section NormalRun.
Variable parse_number : string -> option Q.

(** X14.  Whenever the filters leave at least one row, the run ends
    normally, and the last thing it shows is the filtered table, under
    its heading, holding exactly the rows the filters left. *)
Theorem script_ends_with_filtered_table (w : World) (evs : list event)
    (r : LongRecord) (rest : list LongRecord) :
  filtered parse_number w = (evs, Return (r :: rest)) ->
  exists shown,
    script parse_number w
    = (evs ++ shown
         ++ [EvSubheader "Datos filtrados"; EvFilteredTable (r :: rest)],
       Return tt) /\
    Forall (fun ev => is_filtered_table ev = false) (evs ++ shown).
Proof.
  intros H.
  exists (EvSubheader "Indicadores clave"
            :: fst (section_block (presenter_raises w) SecKPI (r :: rest))
          ++ EvSubheader "Tendencia: Retención por año"
            :: fst (section_block (presenter_raises w)
                      (SecChart ChartRetention) (r :: rest))
          ++ EvSubheader "Satisfacción promedio por año"
            :: fst (section_block (presenter_raises w)
                      (SecChart ChartSatisfaction) (r :: rest))
          ++ EvSubheader "Distribución de matrículas por periodo"
            :: fst (section_block (presenter_raises w)
                      (SecChart ChartTerm) (r :: rest))).
  split.
  - unfold script. rewrite H. simpl pbind.
    rewrite dashboard_layout. f_equal. f_equal.
    simpl. repeat (rewrite <- ?app_assoc; simpl). reflexivity.
  - apply Forall_app. split.
    + pose proof (filtered_events parse_number w) as Hev.
      rewrite H in Hev. simpl in Hev.
      eapply Forall_impl; [|exact Hev]. intros ev [_ Hf]. exact Hf.
    + simpl. unfold kpi_block, chart_block, present.
      destruct (total_enr (r :: rest));
        destruct (presenter_raises w (WMetric KRetention)),
                 (presenter_raises w (WMetric KSatisfaction)),
                 (presenter_raises w (WMetric KEnrollments)),
                 (presenter_raises w (WChart ChartRetention)),
                 (presenter_raises w (WChart ChartSatisfaction)),
                 (presenter_raises w (WChart ChartTerm));
        simpl; repeat constructor.
Qed.

End NormalRun.

Lemma script_ends_with_filtered_table_witness :
  exists r rest evs shown,
    filtered parse_unsigned world_two_years = (evs, Return (r :: rest)) /\
    script parse_unsigned world_two_years
    = (evs ++ shown
         ++ [EvSubheader "Datos filtrados"; EvFilteredTable (r :: rest)],
       Return tt) /\
    Forall (fun ev => is_filtered_table ev = false) (evs ++ shown).
Proof.
  assert (H : { d : LongRecord * list LongRecord |
                filtered parse_unsigned world_two_years
                = (fst (filtered parse_unsigned world_two_years),
                   Return (fst d :: snd d)) }).
  { eexists (_, _). vm_compute. reflexivity. }
  destruct H as [[r rest] H]. simpl in H.
  exists r, rest, (fst (filtered parse_unsigned world_two_years)).
  destruct (@script_ends_with_filtered_table parse_unsigned world_two_years
              _ r rest H) as [shown Hs].
  exists shown. split; [exact H|exact Hs].
Defined.

(** ** Years without a value *)

Lemma year_is_compat y y' r : y == y' -> year_is y r = year_is y' r.
Proof.
  intros He. unfold year_is. destruct (Year r) as [z|]; [|reflexivity].
  destruct (Qeq_bool z y) eqn:H1, (Qeq_bool z y') eqn:H2; try reflexivity.
  - apply Qeq_bool_iff in H1.
    assert (Qeq_bool z y' = true); [|congruence].
    apply Qeq_bool_iff. now rewrite H1.
  - apply Qeq_bool_iff in H2.
    assert (Qeq_bool z y = true); [|congruence].
    apply Qeq_bool_iff. now rewrite H2, He.
Qed.

(** X15.  A year all of whose rows lack the value still has its entry in
    the yearly series, with no mean: the chart gets a gap at that year,
    the year does not disappear. *)
Theorem year_without_values_kept (val : LongRecord -> option Q)
    (df_f : list LongRecord) (r : LongRecord) (y : Q) :
  In r df_f -> Year r = Some y ->
  (forall r', In r' df_f -> year_is y r' = true -> val r' = None) ->
  exists y', In (y', None) (groupby_mean Year val df_f) /\ y == y'.
Proof.
  intros Hr Hy Hnone. unfold groupby_mean.
  destruct (groupby_yearly series_mean val df_f) as (_ & Hmean & Hcov).
  destruct (Hcov r y Hr Hy) as [y' [m [Hin He]]].
  exists y'. split; [|exact He].
  destruct (Hmean y' m Hin) as [_ Hm].
  assert (Hnil : dropna (map val (filter (year_is y') df_f)) = []).
  { apply dropna_nil_iff. intros c Hc.
    apply in_map_iff in Hc. destruct Hc as [r' [<- Hr']].
    apply filter_In in Hr'. destruct Hr' as [Hin' Hy'].
    apply Hnone; [exact Hin'|]. now rewrite (year_is_compat r' He). }
  unfold series_mean in Hm. rewrite Hnil in Hm. now subst m.
Qed.

Lemma year_without_values_kept_witness :
  exists y',
    In (y', None) (groupby_mean Year SatisfactionScore
                                [rec_2020_80; rec_2021_90]) /\
    inject_Z 2020 == y'.
Proof.
  apply (@year_without_values_kept SatisfactionScore
           [rec_2020_80; rec_2021_90] rec_2020_80 (inject_Z 2020)).
  - now left.
  - reflexivity.
  - intros r' [<-|[<-|[]]] _; reflexivity.
Defined.
